(** * School administration backend: models, session and handlers of [main.py]

    The program is a FastAPI application over a SQLModel/SQLite store.  Every
    handler receives a session, reads and writes rows through it, commits and
    returns the refreshed object.  The development embeds

    - the table classes as records (one module per class, fields under the
      source's names);
    - the database as a record of tables, [Store];
    - the session as a pair of stores: the rows as last committed and the
      rows as the open transaction sees them;
    - each handler as a program of a small state-and-error monad over the
      session, statement for statement;
    - the application as [handle], which maps a request to its handler.

    Integers are unbounded ([Z]), as Python's are, and floats are IEEE
    binary64.  The engine holds 64-bit integers and no NaN: an integer out
    of that range or a NaN that a body puts into a row of [book],
    [examresult] or [examfee] is refused when the row is written (see
    [int64] and [is_nan]), and a float is read back as the column holds it
    (see [REAL]).  Ids in a path and the integers of an issue are taken to
    be in range, and so is the next key of a table.
    [date.today()] is an input of the request. *)

From Stdlib Require Import ZArith Lia SpecFloat.
From stdpp Require Import base option list strings gmap.

Local Open Scope Z_scope.

(** ** Models and schemas *)

Record date := Date { year : Z; month : Z; day : Z }.

(** Python's [float]: an IEEE 754 binary64 value.  The program stores and
    returns floats and computes nothing with them. *)
Definition float : Type := spec_float.

(** [m] times two to the [e]. *)
Definition float_of (m : positive) (e : Z) : float := S754_finite false m e.

#[global] Instance float_eq_dec : EqDecision float.
Proof. unfold float. solve_decision. Defined.

(** The driver writes a NaN as NULL. *)
Definition is_nan (x : float) : bool :=
  match x with
  | S754_nan => true
  | _ => false
  end.

(** What a column of type FLOAT gives back for a float that was written to
    it: the float itself, except that a negative zero comes back as zero
    (the engine writes a float that is a whole number as an integer). *)
Definition REAL (x : float) : float :=
  match x with
  | S754_zero _ => S754_zero false
  | _ => x
  end.

(** The integers the driver can pass to the engine; a larger one raises
    [OverflowError] before the statement runs. *)
Definition int64 (z : Z) : bool :=
  (-2 ^ 63 <=? z) && (z <? 2 ^ 63).

(** An optional integer: NULL is always in range. *)
Definition int64_opt (z : option Z) : bool :=
  match z with
  | Some z => int64 z
  | None => true
  end.

#[global] Instance date_eq_dec : EqDecision date.
Proof. solve_decision. Defined.

Module ClassroomStudent.
Record t := make { classroom_id : Z; student_id : Z }.
#[global] Instance eq_dec : EqDecision t.
Proof. solve_decision. Defined.
End ClassroomStudent.

Module StudentBase.
Record t := make { name : string; contact_number : string; dob : date }.
End StudentBase.

Module Student.
Record t := make {
  id : option Z;
  name : string;
  contact_number : string;
  dob : date }.

#[global] Instance eq_dec : EqDecision t.
Proof. solve_decision. Defined.

(** The [Student] built from the keywords of [student.dict()]. *)
Definition of_base (b : StudentBase.t) : t :=
  {| id := None;
     name := StudentBase.name b;
     contact_number := StudentBase.contact_number b;
     dob := StudentBase.dob b |}.

Definition with_id (k : Z) (s : t) : t :=
  {| id := Some k; name := name s;
     contact_number := contact_number s; dob := dob s |}.

(** [for key, val in student.dict().items(): setattr(db_student, key, val)] *)
Definition assign (b : StudentBase.t) (s : t) : t :=
  {| id := id s;
     name := StudentBase.name b;
     contact_number := StudentBase.contact_number b;
     dob := StudentBase.dob b |}.
End Student.

Module StaffBase.
Record t := make { name : string; contact_number : string; dob : date }.
End StaffBase.

Module Staff.
Record t := make {
  id : option Z;
  name : string;
  contact_number : string;
  dob : date }.

Definition of_base (b : StaffBase.t) : t :=
  {| id := None;
     name := StaffBase.name b;
     contact_number := StaffBase.contact_number b;
     dob := StaffBase.dob b |}.

Definition with_id (k : Z) (s : t) : t :=
  {| id := Some k; name := name s;
     contact_number := contact_number s; dob := dob s |}.

Definition assign (b : StaffBase.t) (s : t) : t :=
  {| id := id s;
     name := StaffBase.name b;
     contact_number := StaffBase.contact_number b;
     dob := StaffBase.dob b |}.
End Staff.

Module ClassroomBase.
Record t := make {
  class_name : string; std : string; sec : string; class_teacher : string }.
End ClassroomBase.

Module Classroom.
Record t := make {
  id : option Z;
  class_name : string;
  std : string;
  sec : string;
  class_teacher : string }.

Definition of_base (b : ClassroomBase.t) : t :=
  {| id := None;
     class_name := ClassroomBase.class_name b;
     std := ClassroomBase.std b;
     sec := ClassroomBase.sec b;
     class_teacher := ClassroomBase.class_teacher b |}.

Definition with_id (k : Z) (c : t) : t :=
  {| id := Some k; class_name := class_name c; std := std c;
     sec := sec c; class_teacher := class_teacher c |}.
End Classroom.

Module BookBase.
Record t := make {
  title : string; author : string; isbn : string; total_copies : Z }.
End BookBase.

Module Book.
Record t := make {
  id : option Z;
  title : string;
  author : string;
  isbn : string;
  total_copies : Z;
  available_copies : Z }.

(** The [Book] built from the keywords of [book.dict()] and an
    [available_copies]. *)
Definition of_base (b : BookBase.t) (available : Z) : t :=
  {| id := None;
     title := BookBase.title b;
     author := BookBase.author b;
     isbn := BookBase.isbn b;
     total_copies := BookBase.total_copies b;
     available_copies := available |}.

Definition with_id (k : Z) (b : t) : t :=
  {| id := Some k; title := title b; author := author b; isbn := isbn b;
     total_copies := total_copies b;
     available_copies := available_copies b |}.

Definition set_available_copies (n : Z) (b : t) : t :=
  {| id := id b; title := title b; author := author b; isbn := isbn b;
     total_copies := total_copies b;
     available_copies := n |}.
End Book.

Module Issue.
(** [issue_date] has [default_factory=date.today]: the default is filled
    in when the object is built, see [Issue.create]. *)
Record t := make {
  id : option Z;
  student_id : Z;
  book_id : Z;
  issue_date : date;
  return_date : option date }.

(** The object built from a body that gives [student_id] and [book_id]
    only. *)
Definition create (today : date) (student book : Z) : t :=
  {| id := None; student_id := student; book_id := book;
     issue_date := today; return_date := None |}.

Definition with_id (k : Z) (i : t) : t :=
  {| id := Some k; student_id := student_id i; book_id := book_id i;
     issue_date := issue_date i; return_date := return_date i |}.

Definition set_return_date (d : option date) (i : t) : t :=
  {| id := id i; student_id := student_id i; book_id := book_id i;
     issue_date := issue_date i; return_date := d |}.
End Issue.

Module ExamResult.
Record t := make {
  id : option Z;
  student_id : Z;
  exam_name : string;
  marks_obtained : float;
  max_marks : float }.

Definition with_id (k : Z) (r : t) : t :=
  {| id := Some k; student_id := student_id r; exam_name := exam_name r;
     marks_obtained := marks_obtained r; max_marks := max_marks r |}.

(** The object as its row gives it back. *)
Definition as_row (r : t) : t :=
  {| id := id r; student_id := student_id r; exam_name := exam_name r;
     marks_obtained := REAL (marks_obtained r);
     max_marks := REAL (max_marks r) |}.
End ExamResult.

Module ExamFee.
Record t := make {
  id : option Z;
  student_id : Z;
  amount : float;
  due_date : date;
  paid : bool }.

Definition with_id (k : Z) (f : t) : t :=
  {| id := Some k; student_id := student_id f; amount := amount f;
     due_date := due_date f; paid := paid f |}.

(** The object as its row gives it back. *)
Definition as_row (f : t) : t :=
  {| id := id f; student_id := student_id f; amount := REAL (amount f);
     due_date := due_date f; paid := paid f |}.

(** The fields of the class, in declaration order: the keys of
    [fee.dict()]. *)
Inductive field := f_id | f_student_id | f_amount | f_due_date | f_paid.

#[global] Instance field_eq_dec : EqDecision field.
Proof. solve_decision. Defined.

Definition fields : list field :=
  [f_id; f_student_id; f_amount; f_due_date; f_paid].

(** [setattr(db_fee, key, val)] with [val] the value [fee] holds under
    [key]. *)
Definition setattr_from (fee : t) (db_fee : t) (key : field) : t :=
  match key with
  | f_id =>
      {| id := id fee; student_id := student_id db_fee;
         amount := amount db_fee; due_date := due_date db_fee;
         paid := paid db_fee |}
  | f_student_id =>
      {| id := id db_fee; student_id := student_id fee;
         amount := amount db_fee; due_date := due_date db_fee;
         paid := paid db_fee |}
  | f_amount =>
      {| id := id db_fee; student_id := student_id db_fee;
         amount := amount fee; due_date := due_date db_fee;
         paid := paid db_fee |}
  | f_due_date =>
      {| id := id db_fee; student_id := student_id db_fee;
         amount := amount db_fee; due_date := due_date fee;
         paid := paid db_fee |}
  | f_paid =>
      {| id := id db_fee; student_id := student_id db_fee;
         amount := amount db_fee; due_date := due_date db_fee;
         paid := paid fee |}
  end.

(** The keys of [fee.dict(exclude_unset=True)]: the declared fields that
    the request set, in declaration order. *)
Definition dict_exclude_unset (fields_set : list field) : list field :=
  filter (λ k, k ∈ fields_set) fields.
End ExamFee.

(** *** Read schemas *)

Module ClassroomRead.
Record t := make {
  class_name : string; std : string; sec : string; class_teacher : string;
  id : Z }.
End ClassroomRead.

Module BookRead.
Record t := make {
  title : string; author : string; isbn : string; total_copies : Z;
  id : Z; available_copies : Z }.
End BookRead.

Module IssueRead.
Record t := make {
  id : Z; issue_date : date; return_date : option date; book : BookRead.t }.
End IssueRead.

Module ExamResultRead.
Record t := make {
  exam_name : string; marks_obtained : float; max_marks : float }.
End ExamResultRead.

Module ExamFeeRead.
Record t := make { id : Z; amount : float; due_date : date; paid : bool }.
End ExamFeeRead.

Module StudentRead.
Record t := make {
  name : string;
  contact_number : string;
  dob : date;
  id : Z;
  classrooms : list ClassroomRead.t;
  issues : list IssueRead.t;
  results : list ExamResultRead.t;
  fees : list ExamFeeRead.t }.
End StudentRead.

(** ** Database *)

(** One table per [table=True] class, keyed by the integer primary key; the
    link table has a composite key and no column of its own, it is the list
    of its rows. *)
Record Store := mkStore {
  student : gmap Z Student.t;
  staff : gmap Z Staff.t;
  classroom : gmap Z Classroom.t;
  classroomstudent : list ClassroomStudent.t;
  book : gmap Z Book.t;
  issue : gmap Z Issue.t;
  examresult : gmap Z ExamResult.t;
  examfee : gmap Z ExamFee.t }.

Definition empty_store : Store :=
  mkStore ∅ ∅ ∅ [] ∅ ∅ ∅ ∅.

Definition set_student (m : gmap Z Student.t) (s : Store) : Store :=
  mkStore m (staff s) (classroom s) (classroomstudent s) (book s) (issue s)
    (examresult s) (examfee s).
Definition set_staff (m : gmap Z Staff.t) (s : Store) : Store :=
  mkStore (student s) m (classroom s) (classroomstudent s) (book s) (issue s)
    (examresult s) (examfee s).
Definition set_classroom (m : gmap Z Classroom.t) (s : Store) : Store :=
  mkStore (student s) (staff s) m (classroomstudent s) (book s) (issue s)
    (examresult s) (examfee s).
Definition set_classroomstudent (l : list ClassroomStudent.t) (s : Store)
  : Store :=
  mkStore (student s) (staff s) (classroom s) l (book s) (issue s)
    (examresult s) (examfee s).
Definition set_book (m : gmap Z Book.t) (s : Store) : Store :=
  mkStore (student s) (staff s) (classroom s) (classroomstudent s) m (issue s)
    (examresult s) (examfee s).
Definition set_issue (m : gmap Z Issue.t) (s : Store) : Store :=
  mkStore (student s) (staff s) (classroom s) (classroomstudent s) (book s) m
    (examresult s) (examfee s).
Definition set_examresult (m : gmap Z ExamResult.t) (s : Store) : Store :=
  mkStore (student s) (staff s) (classroom s) (classroomstudent s) (book s)
    (issue s) m (examfee s).
Definition set_examfee (m : gmap Z ExamFee.t) (s : Store) : Store :=
  mkStore (student s) (staff s) (classroom s) (classroomstudent s) (book s)
    (issue s) (examresult s) m.

(** The key an [INTEGER PRIMARY KEY] column takes when the row gives none:
    one more than the largest key of the table, 1 for an empty table. *)
Definition next_id {A} (m : gmap Z A) : Z :=
  match map_to_list m with
  | [] => 1
  | (k, _) :: l => 1 + foldr (λ p acc, Z.max p.1 acc) k l
  end.

(** ** Errors, session and the handler monad *)

Inductive Error :=
| HTTPException (status_code : Z) (detail : string)
| IntegrityError          (* a constraint of the schema refused a statement *)
| OverflowError           (* an integer too large for the engine *)
| AttributeError          (* attribute access on [None] *)
| ResponseValidationError (* the result does not fit the response model *).

Inductive result (A : Type) :=
| Ok (a : A)
| Raise (e : Error).
Arguments Ok {A} a.
Arguments Raise {A} e.

(** A session: whether the connection enforces the declared foreign keys
    (SQLite's [PRAGMA foreign_keys]; the program never sets it, so it is the
    engine's default), the rows as last committed and the rows as seen by
    the open transaction.  A session that ends without [commit] leaves
    [committed] as it was. *)
Record Session := mkSession {
  foreign_keys : bool;
  committed : Store;
  txn : Store }.

Definition M (A : Type) : Type := Session → Session * result A.

Definition ret {A} (a : A) : M A := λ s, (s, Ok a).

Definition bind {A B} (m : M A) (k : A → M B) : M B :=
  λ s, match m s with
       | (s', Ok a) => k a s'
       | (s', Raise e) => (s', Raise e)
       end.

Definition raise {A} (e : Error) : M A := λ s, (s, Raise e).

#[global] Instance M_ret : MRet M := @ret.
#[global] Instance M_bind : MBind M := λ A B k m, bind m k.

#[global] Instance M_fmap : FMap M := λ A B f m, bind m (λ a, ret (f a)).

(** [session.get] and [session.exec(select ...)]: a read of the
    transaction's rows. *)
Definition query {A} (f : Store → A) : M A := λ s, (s, Ok (f (txn s))).

(** One SQL statement: it turns the transaction's rows into new ones or is
    refused. *)
Definition execute {A} (stmt : bool → Store → result (Store * A)) : M A :=
  λ s, match stmt (foreign_keys s) (txn s) with
       | Ok (st, a) => (mkSession (foreign_keys s) (committed s) st, Ok a)
       | Raise e => (s, Raise e)
       end.

(** [session.commit()] *)
Definition commit : M unit :=
  λ s, (mkSession (foreign_keys s) (txn s) (txn s), Ok tt).

(** A request: open a session on the store, run the handler, keep what was
    committed. *)
Definition open (fk : bool) (st : Store) : Session := mkSession fk st st.

Definition run {A} (fk : bool) (m : M A) (st : Store) : Store * result A :=
  let '(s, r) := m (open fk st) in (committed s, r).

(** ** SQL statements

    Each statement takes the foreign-key switch and the transaction's rows
    and gives the new rows with the object as [session.refresh] reloads it,
    or the error of the constraint that refused it.  The ORM sends the
    statements of a handler when [commit] flushes; no handler reads a row
    again between changing it and [commit], so a statement is run here at
    the line that makes the change. *)

(** Primary key of a new row: the given one if it is free, the next one if
    none is given. *)
Definition new_pk {A} (m : gmap Z A) (id : option Z) : result Z :=
  match id with
  | None => Ok (next_id m)
  | Some k => match m !! k with
              | Some _ => Raise IntegrityError
              | None => Ok k
              end
  end.

(** A declared foreign key: checked only when the connection enforces it. *)
Definition references {A} (fk : bool) (m : gmap Z A) (k : Z) : bool :=
  if fk then bool_decide (is_Some (m !! k)) else true.

Definition INSERT_student (s : Student.t) (fk : bool) (st : Store)
  : result (Store * Student.t) :=
  match new_pk (student st) (Student.id s) with
  | Raise e => Raise e
  | Ok k => let row := Student.with_id k s in
            Ok (set_student (<[k := row]> (student st)) st, row)
  end.

Definition INSERT_staff (s : Staff.t) (fk : bool) (st : Store)
  : result (Store * Staff.t) :=
  match new_pk (staff st) (Staff.id s) with
  | Raise e => Raise e
  | Ok k => let row := Staff.with_id k s in
            Ok (set_staff (<[k := row]> (staff st)) st, row)
  end.

Definition INSERT_classroom (c : Classroom.t) (fk : bool) (st : Store)
  : result (Store * Classroom.t) :=
  match new_pk (classroom st) (Classroom.id c) with
  | Raise e => Raise e
  | Ok k => let row := Classroom.with_id k c in
            Ok (set_classroom (<[k := row]> (classroom st)) st, row)
  end.

Definition INSERT_book (b : Book.t) (fk : bool) (st : Store)
  : result (Store * Book.t) :=
  if int64 (Book.total_copies b) && int64 (Book.available_copies b)
  then match new_pk (book st) (Book.id b) with
       | Raise e => Raise e
       | Ok k => let row := Book.with_id k b in
                 Ok (set_book (<[k := row]> (book st)) st, row)
       end
  else Raise OverflowError.

Definition INSERT_issue (i : Issue.t) (fk : bool) (st : Store)
  : result (Store * Issue.t) :=
  match new_pk (issue st) (Issue.id i) with
  | Raise e => Raise e
  | Ok k =>
      if references fk (student st) (Issue.student_id i)
         && references fk (book st) (Issue.book_id i)
      then let row := Issue.with_id k i in
           Ok (set_issue (<[k := row]> (issue st)) st, row)
      else Raise IntegrityError
  end.

(** [marks_obtained] and [max_marks] are declared [float], not optional:
    the columns are NOT NULL and refuse a NaN.  The refresh reads the
    floats back from the row. *)
Definition INSERT_examresult (r : ExamResult.t) (fk : bool) (st : Store)
  : result (Store * ExamResult.t) :=
  if int64_opt (ExamResult.id r) && int64 (ExamResult.student_id r)
  then match new_pk (examresult st) (ExamResult.id r) with
       | Raise e => Raise e
       | Ok k =>
           if negb (is_nan (ExamResult.marks_obtained r))
              && negb (is_nan (ExamResult.max_marks r))
              && references fk (student st) (ExamResult.student_id r)
           then let row := ExamResult.with_id k (ExamResult.as_row r) in
                Ok (set_examresult (<[k := row]> (examresult st)) st, row)
           else Raise IntegrityError
       end
  else Raise OverflowError.

(** [amount] is declared [float], not optional: the column is NOT NULL
    and refuses a NaN.  The refresh reads the float back from the row. *)
Definition INSERT_examfee (f : ExamFee.t) (fk : bool) (st : Store)
  : result (Store * ExamFee.t) :=
  if int64_opt (ExamFee.id f) && int64 (ExamFee.student_id f)
  then match new_pk (examfee st) (ExamFee.id f) with
       | Raise e => Raise e
       | Ok k =>
           if negb (is_nan (ExamFee.amount f))
              && references fk (student st) (ExamFee.student_id f)
           then let row := ExamFee.with_id k (ExamFee.as_row f) in
                Ok (set_examfee (<[k := row]> (examfee st)) st, row)
           else Raise IntegrityError
       end
  else Raise OverflowError.

(** The link table has the composite primary key
    [(classroom_id, student_id)]: a second row with the same pair is
    refused. *)
Definition INSERT_classroomstudent (l : ClassroomStudent.t) (fk : bool)
    (st : Store) : result (Store * unit) :=
  if bool_decide (l ∈ classroomstudent st) then Raise IntegrityError
  else if references fk (classroom st) (ClassroomStudent.classroom_id l)
          && references fk (student st) (ClassroomStudent.student_id l)
  then Ok (set_classroomstudent (classroomstudent st ++ [l]) st, tt)
  else Raise IntegrityError.

Definition DELETE_classroomstudent (l : ClassroomStudent.t) (fk : bool)
    (st : Store) : result (Store * unit) :=
  Ok (set_classroomstudent (filter (λ r, r ≠ l) (classroomstudent st)) st, tt).

Definition UPDATE_student (k : Z) (s : Student.t) (fk : bool) (st : Store)
  : result (Store * Student.t) :=
  let row := Student.with_id k s in
  Ok (set_student (<[k := row]> (student st)) st, row).

Definition UPDATE_staff (k : Z) (s : Staff.t) (fk : bool) (st : Store)
  : result (Store * Staff.t) :=
  let row := Staff.with_id k s in
  Ok (set_staff (<[k := row]> (staff st)) st, row).

Definition UPDATE_book (k : Z) (b : Book.t) (fk : bool) (st : Store)
  : result (Store * Book.t) :=
  let row := Book.with_id k b in
  Ok (set_book (<[k := row]> (book st)) st, row).

Definition UPDATE_issue (k : Z) (i : Issue.t) (fk : bool) (st : Store)
  : result (Store * Issue.t) :=
  let row := Issue.with_id k i in
  Ok (set_issue (<[k := row]> (issue st)) st, row).

(** The one update that can change a primary key or a foreign key: the
    object's [id] and [student_id] may have been assigned.  The update
    sets the columns that changed, and the refresh reads a changed
    [amount] back from the row.  The engine refuses a NULL key, a key that
    another row holds, a changed [amount] that is a NaN and, when it
    enforces foreign keys, a changed [student_id] without a student.  The
    integers of the object are taken to be in range. *)
Definition UPDATE_examfee (k : Z) (f : ExamFee.t) (fk : bool) (st : Store)
  : result (Store * ExamFee.t) :=
  match ExamFee.id f with
  | None => Raise IntegrityError
  | Some k' =>
      if bool_decide (k' ≠ k) && bool_decide (is_Some (examfee st !! k'))
      then Raise IntegrityError
      else if (bool_decide (ExamFee.amount <$> examfee st !! k
                            = Some (ExamFee.amount f))
               || negb (is_nan (ExamFee.amount f)))
              && (bool_decide (ExamFee.student_id <$> examfee st !! k
                               = Some (ExamFee.student_id f))
                  || references fk (student st) (ExamFee.student_id f))
      then let row := if bool_decide (ExamFee.amount <$> examfee st !! k
                                      = Some (ExamFee.amount f))
                      then f else ExamFee.as_row f in
           Ok (set_examfee (<[k' := row]> (delete k (examfee st))) st, row)
      else Raise IntegrityError
  end.

(** [session.delete(db_student)].  The ORM first deletes the student's rows
    of the link table (the relationship has a [link_model]) and sets the
    [student_id] of the student's issues, results and fees to NULL (their
    relationships have no delete cascade); those columns are declared
    [int], not optional, so the engine refuses the NULL if there is such a
    row.  Then the student's row is deleted. *)
Definition refers_to {A} (student_id_of : A → Z) (k : Z) (m : gmap Z A)
  : bool :=
  bool_decide (Exists (λ p, student_id_of p.2 = k) (map_to_list m)).

Definition DELETE_student (k : Z) (fk : bool) (st : Store)
  : result (Store * unit) :=
  if refers_to Issue.student_id k (issue st)
     || refers_to ExamResult.student_id k (examresult st)
     || refers_to ExamFee.student_id k (examfee st)
  then Raise IntegrityError
  else
    Ok (set_student (delete k (student st))
          (set_classroomstudent
             (filter (λ r, ClassroomStudent.student_id r ≠ k)
                     (classroomstudent st)) st), tt).

Definition DELETE_staff (k : Z) (fk : bool) (st : Store)
  : result (Store * unit) :=
  Ok (set_staff (delete k (staff st)) st, tt).

Definition DELETE_examresult (k : Z) (fk : bool) (st : Store)
  : result (Store * unit) :=
  Ok (set_examresult (delete k (examresult st)) st, tt).

Definition DELETE_examfee (k : Z) (fk : bool) (st : Store)
  : result (Store * unit) :=
  Ok (set_examfee (delete k (examfee st)) st, tt).

(** ** Loading objects

    The [id] column is the key of the table: an object loaded from key [k]
    has [id = k]. *)

Definition session_get {A} (with_id : Z → A → A) (tbl : Store → gmap Z A)
    (k : Z) : M (option A) :=
  query (λ st, with_id k <$> tbl st !! k).

(** [session.exec(select(T)).all()]; the order of the rows is the order of
    [map_to_list], the statement asks for none. *)
Definition select_all {A} (with_id : Z → A → A) (tbl : Store → gmap Z A)
  : M (list A) :=
  query (λ st, (λ p, with_id p.1 p.2) <$> map_to_list (tbl st)).

(** [select(T).where(T.student_id == student_id)] *)
Definition select_where_student {A} (with_id : Z → A → A)
    (student_id_of : A → Z) (tbl : gmap Z A) (student_id : Z) : list A :=
  (λ p, with_id p.1 p.2)
    <$> filter (λ p, student_id_of p.2 = student_id) (map_to_list tbl).

(** The relationship [Classroom.students]: the students that a row of the
    link table pairs with the classroom.  The load asks for no order; the
    list is in the order of the link table's rows here, and nothing is
    stated about the order in which a roster comes back. *)
Definition Classroom_students (st : Store) (class_id : Z) : list Student.t :=
  omap (λ l,
          if decide (ClassroomStudent.classroom_id l = class_id)
          then Student.with_id (ClassroomStudent.student_id l)
                 <$> student st !! ClassroomStudent.student_id l
          else None)
       (classroomstudent st).

(** The relationship [Student.classrooms], in no order that is asked
    for. *)
Definition Student_classrooms (st : Store) (student_id : Z)
  : list Classroom.t :=
  omap (λ l,
          if decide (ClassroomStudent.student_id l = student_id)
          then Classroom.with_id (ClassroomStudent.classroom_id l)
                 <$> classroom st !! ClassroomStudent.classroom_id l
          else None)
       (classroomstudent st).

(** The relationship [Issue.book]. *)
Definition Issue_book (st : Store) (i : Issue.t) : option Book.t :=
  Book.with_id (Issue.book_id i) <$> book st !! Issue.book_id i.

(** *** Response models with nested objects

    A read schema declares [id: int] and [book: BookRead]: an object
    without them does not validate. *)

Definition ClassroomRead_validate (c : Classroom.t) : option ClassroomRead.t :=
  k ← Classroom.id c;
  Some (ClassroomRead.make (Classroom.class_name c) (Classroom.std c)
          (Classroom.sec c) (Classroom.class_teacher c) k).

Definition BookRead_validate (b : Book.t) : option BookRead.t :=
  k ← Book.id b;
  Some (BookRead.make (Book.title b) (Book.author b) (Book.isbn b)
          (Book.total_copies b) k (Book.available_copies b)).

Definition IssueRead_validate (st : Store) (i : Issue.t) : option IssueRead.t :=
  k ← Issue.id i;
  b ← Issue_book st i;
  b ← BookRead_validate b;
  Some (IssueRead.make k (Issue.issue_date i) (Issue.return_date i) b).

Definition ExamResultRead_validate (r : ExamResult.t) : ExamResultRead.t :=
  ExamResultRead.make (ExamResult.exam_name r) (ExamResult.marks_obtained r)
    (ExamResult.max_marks r).

Definition ExamFeeRead_validate (f : ExamFee.t) : option ExamFeeRead.t :=
  k ← ExamFee.id f;
  Some (ExamFeeRead.make k (ExamFee.amount f) (ExamFee.due_date f)
          (ExamFee.paid f)).

Definition StudentRead_validate (st : Store) (s : Student.t)
  : option StudentRead.t :=
  k ← Student.id s;
  classrooms ← mapM ClassroomRead_validate (Student_classrooms st k);
  issues ← mapM (IssueRead_validate st)
             (select_where_student Issue.with_id Issue.student_id
                (issue st) k);
  fees ← mapM ExamFeeRead_validate
           (select_where_student ExamFee.with_id ExamFee.student_id
              (examfee st) k);
  Some (StudentRead.make (Student.name s) (Student.contact_number s)
          (Student.dob s) k classrooms issues
          (ExamResultRead_validate
             <$> select_where_student ExamResult.with_id
                   ExamResult.student_id (examresult st) k)
          fees).

Definition response_model {A} (validate : Store → option A) : M A :=
  λ s, match validate (txn s) with
       | Some a => (s, Ok a)
       | None => (s, Raise ResponseValidationError)
       end.

(** ** Handlers *)

(** *** Student CRUD *)

(** [main.py], lines 142 to 148. *)
Definition create_student (student_ : StudentBase.t) : M Student.t :=
  let db_student := Student.of_base student_ in
  db_student ← execute (INSERT_student db_student);
  commit;;
  mret db_student.

(** [main.py], lines 150 to 152. *)
Definition list_students : M (list Student.t) :=
  select_all Student.with_id student.

(** [main.py], lines 154 to 159. *)
Definition get_student (student_id : Z) : M StudentRead.t :=
  db_student ← session_get Student.with_id student student_id;
  match db_student with
  | None => raise (HTTPException 404 "Student not found")
  | Some db_student =>
      response_model (λ st, StudentRead_validate st db_student)
  end.

(** [main.py], lines 161 to 170. *)
Definition update_student (student_id : Z) (student_ : StudentBase.t)
  : M Student.t :=
  db_student ← session_get Student.with_id student student_id;
  match db_student with
  | None => raise (HTTPException 404 "Student not found")
  | Some db_student =>
      db_student ← execute
        (UPDATE_student student_id (Student.assign student_ db_student));
      commit;;
      mret db_student
  end.

(** [main.py], lines 172 to 178. *)
Definition delete_student (student_id : Z) : M unit :=
  db_student ← session_get Student.with_id student student_id;
  match db_student with
  | None => raise (HTTPException 404 "Student not found")
  | Some db_student =>
      execute (DELETE_student student_id);;
      commit
  end.

(** *** Staff CRUD *)

(** [main.py], lines 182 to 188. *)
Definition create_staff (staff_ : StaffBase.t) : M Staff.t :=
  let db_staff := Staff.of_base staff_ in
  db_staff ← execute (INSERT_staff db_staff);
  commit;;
  mret db_staff.

(** [main.py], lines 190 to 192. *)
Definition list_staff : M (list Staff.t) :=
  select_all Staff.with_id staff.

(** [main.py], lines 194 to 199. *)
Definition get_staff (staff_id : Z) : M Staff.t :=
  db_staff ← session_get Staff.with_id staff staff_id;
  match db_staff with
  | None => raise (HTTPException 404 "Staff not found")
  | Some db_staff => mret db_staff
  end.

(** [main.py], lines 201 to 210. *)
Definition update_staff (staff_id : Z) (staff_ : StaffBase.t) : M Staff.t :=
  db_staff ← session_get Staff.with_id staff staff_id;
  match db_staff with
  | None => raise (HTTPException 404 "Staff not found")
  | Some db_staff =>
      db_staff ← execute
        (UPDATE_staff staff_id (Staff.assign staff_ db_staff));
      commit;;
      mret db_staff
  end.

(** [main.py], lines 212 to 218. *)
Definition delete_staff (staff_id : Z) : M unit :=
  db_staff ← session_get Staff.with_id staff staff_id;
  match db_staff with
  | None => raise (HTTPException 404 "Staff not found")
  | Some db_staff =>
      execute (DELETE_staff staff_id);;
      commit
  end.

(** *** Classrooms *)

(** [main.py], lines 222 to 228. *)
Definition create_classroom (classroom_ : ClassroomBase.t) : M Classroom.t :=
  let db_class := Classroom.of_base classroom_ in
  db_class ← execute (INSERT_classroom db_class);
  commit;;
  mret db_class.

(** [main.py], lines 230 to 232. *)
Definition list_classrooms : M (list Classroom.t) :=
  select_all Classroom.with_id classroom.

(** [main.py], lines 234 to 245. *)
Definition add_student_to_class (class_id student_id : Z) : M Classroom.t :=
  db_class ← session_get Classroom.with_id classroom class_id;
  db_student ← session_get Student.with_id student student_id;
  match db_class, db_student with
  | Some db_class, Some db_student =>
      students ← query (λ st, Classroom_students st class_id);
      if bool_decide (db_student ∈ students)
      then raise (HTTPException 400 "Student already in class")
      else
        execute (INSERT_classroomstudent
                   (ClassroomStudent.make class_id student_id));;
        commit;;
        mret db_class
  | _, _ => raise (HTTPException 404 "Class or Student not found")
  end.

(** [main.py], lines 247 to 258. *)
Definition remove_student_from_class (class_id student_id : Z)
  : M Classroom.t :=
  db_class ← session_get Classroom.with_id classroom class_id;
  db_student ← session_get Student.with_id student student_id;
  match db_class, db_student with
  | Some db_class, Some db_student =>
      students ← query (λ st, Classroom_students st class_id);
      if bool_decide (db_student ∉ students)
      then raise (HTTPException 400 "Student not in class")
      else
        execute (DELETE_classroomstudent
                   (ClassroomStudent.make class_id student_id));;
        commit;;
        mret db_class
  | _, _ => raise (HTTPException 404 "Class or Student not found")
  end.

(** [main.py], lines 260 to 265. *)
Definition get_class_students (class_id : Z) : M (list Student.t) :=
  db_class ← session_get Classroom.with_id classroom class_id;
  match db_class with
  | None => raise (HTTPException 404 "Class not found")
  | Some db_class => query (λ st, Classroom_students st class_id)
  end.

(** *** Library *)

(** [main.py], lines 269 to 275. *)
Definition add_book (book_ : BookBase.t) : M Book.t :=
  let db_book := Book.of_base book_ (BookBase.total_copies book_) in
  db_book ← execute (INSERT_book db_book);
  commit;;
  mret db_book.

(** [main.py], lines 277 to 279. *)
Definition list_books : M (list Book.t) :=
  select_all Book.with_id book.

(** [main.py], lines 281 to 286. *)
Definition get_book (book_id : Z) : M Book.t :=
  db_book ← session_get Book.with_id book book_id;
  match db_book with
  | None => raise (HTTPException 404 "Book not found")
  | Some db_book => mret db_book
  end.

(** [main.py], lines 288 to 298. *)
Definition issue_book (issue_ : Issue.t) : M Issue.t :=
  db_book ← session_get Book.with_id book (Issue.book_id issue_);
  match db_book with
  | None => raise (HTTPException 400 "Book unavailable")
  | Some db_book =>
      if Book.available_copies db_book <? 1
      then raise (HTTPException 400 "Book unavailable")
      else
        let db_book :=
          Book.set_available_copies (Book.available_copies db_book - 1)
            db_book in
        execute (UPDATE_book (Issue.book_id issue_) db_book);;
        issue_ ← execute (INSERT_issue issue_);
        commit;;
        mret issue_
  end.

(** [main.py], lines 300 to 311. *)
Definition return_book (today : date) (issue_id : Z) : M Issue.t :=
  db_issue ← session_get Issue.with_id issue issue_id;
  match db_issue with
  | None => raise (HTTPException 400 "Invalid return")
  | Some db_issue =>
      if bool_decide (is_Some (Issue.return_date db_issue))
      then raise (HTTPException 400 "Invalid return")
      else
        db_issue ← execute
          (UPDATE_issue issue_id
             (Issue.set_return_date (Some today) db_issue));
        db_book ← session_get Book.with_id book (Issue.book_id db_issue);
        match db_book with
        | None => raise AttributeError
        | Some db_book =>
            let db_book :=
              Book.set_available_copies (Book.available_copies db_book + 1)
                db_book in
            execute (UPDATE_book (Issue.book_id db_issue) db_book);;
            commit;;
            mret db_issue
        end
  end.

(** [main.py], lines 313 to 315. *)
Definition student_issues (student_id : Z) : M (list Issue.t) :=
  query (λ st, select_where_student Issue.with_id Issue.student_id
                 (issue st) student_id).

(** *** Exam results *)

(** [main.py], lines 319 to 324. *)
Definition add_result (result_ : ExamResult.t) : M ExamResult.t :=
  result_ ← execute (INSERT_examresult result_);
  commit;;
  mret result_.

(** [main.py], lines 326 to 328. *)
Definition list_results : M (list ExamResult.t) :=
  select_all ExamResult.with_id examresult.

(** [main.py], lines 330 to 332. *)
Definition get_results (student_id : Z) : M (list ExamResult.t) :=
  query (λ st, select_where_student ExamResult.with_id ExamResult.student_id
                 (examresult st) student_id).

(** [main.py], lines 334 to 339. *)
Definition get_result (result_id : Z) : M ExamResult.t :=
  db_result ← session_get ExamResult.with_id examresult result_id;
  match db_result with
  | None => raise (HTTPException 404 "Result not found")
  | Some db_result => mret db_result
  end.

(** [main.py], lines 341 to 347. *)
Definition delete_result (result_id : Z) : M unit :=
  db_result ← session_get ExamResult.with_id examresult result_id;
  match db_result with
  | None => raise (HTTPException 404 "Result not found")
  | Some db_result =>
      execute (DELETE_examresult result_id);;
      commit
  end.

(** *** Exam fees *)

(** [main.py], lines 351 to 356. *)
Definition add_fee (fee : ExamFee.t) : M ExamFee.t :=
  fee ← execute (INSERT_examfee fee);
  commit;;
  mret fee.

(** [main.py], lines 358 to 360. *)
Definition get_fees (student_id : Z) : M (list ExamFee.t) :=
  query (λ st, select_where_student ExamFee.with_id ExamFee.student_id
                 (examfee st) student_id).

(** [main.py], lines 362 to 364. *)
Definition list_fees : M (list ExamFee.t) :=
  select_all ExamFee.with_id examfee.

(** [main.py], lines 366 to 371. *)
Definition get_fee (fee_id : Z) : M ExamFee.t :=
  db_fee ← session_get ExamFee.with_id examfee fee_id;
  match db_fee with
  | None => raise (HTTPException 404 "Fee not found")
  | Some db_fee => mret db_fee
  end.

(** [fields_set] is the set of fields the request body gave, which the
    object [fee] records and [dict(exclude_unset=True)] reads.
    ([main.py], lines 373 to 382.) *)
Definition update_fee (fee_id : Z) (fee : ExamFee.t)
    (fields_set : list ExamFee.field) : M ExamFee.t :=
  db_fee ← session_get ExamFee.with_id examfee fee_id;
  match db_fee with
  | None => raise (HTTPException 404 "Fee not found")
  | Some db_fee =>
      let db_fee :=
        foldl (ExamFee.setattr_from fee) db_fee
          (ExamFee.dict_exclude_unset fields_set) in
      db_fee ← execute (UPDATE_examfee fee_id db_fee);
      commit;;
      mret db_fee
  end.

(** [main.py], lines 384 to 390. *)
Definition delete_fee (fee_id : Z) : M unit :=
  db_fee ← session_get ExamFee.with_id examfee fee_id;
  match db_fee with
  | None => raise (HTTPException 404 "Fee not found")
  | Some db_fee =>
      execute (DELETE_examfee fee_id);;
      commit
  end.

(** ** The application *)

Inductive Request :=
| POST_students (student_ : StudentBase.t)
| GET_students
| GET_students_id (student_id : Z)
| PUT_students_id (student_id : Z) (student_ : StudentBase.t)
| DELETE_students_id (student_id : Z)
| POST_staff (staff_ : StaffBase.t)
| GET_staff
| GET_staff_id (staff_id : Z)
| PUT_staff_id (staff_id : Z) (staff_ : StaffBase.t)
| DELETE_staff_id (staff_id : Z)
| POST_classrooms (classroom_ : ClassroomBase.t)
| GET_classrooms
| POST_classrooms_add_student (class_id student_id : Z)
| POST_classrooms_remove_student (class_id student_id : Z)
| GET_classrooms_students (class_id : Z)
| POST_books (book_ : BookBase.t)
| GET_books
| GET_books_id (book_id : Z)
| POST_issues (issue_ : Issue.t)
| POST_returns (issue_id : Z)
| GET_students_issues (student_id : Z)
| POST_results (result_ : ExamResult.t)
| GET_results
| GET_students_results (student_id : Z)
| GET_results_id (result_id : Z)
| DELETE_results_id (result_id : Z)
| POST_fees (fee : ExamFee.t)
| GET_students_fees (student_id : Z)
| GET_fees
| GET_fees_id (fee_id : Z)
| PUT_fees_id (fee_id : Z) (fee : ExamFee.t) (fields_set : list ExamFee.field)
| DELETE_fees_id (fee_id : Z).

Inductive Response :=
| R_Student (s : Student.t)
| R_Students (l : list Student.t)
| R_StudentRead (s : StudentRead.t)
| R_Staff (s : Staff.t)
| R_Staffs (l : list Staff.t)
| R_Classroom (c : Classroom.t)
| R_Classrooms (l : list Classroom.t)
| R_Book (b : Book.t)
| R_Books (l : list Book.t)
| R_Issue (i : Issue.t)
| R_Issues (l : list Issue.t)
| R_ExamResult (r : ExamResult.t)
| R_ExamResults (l : list ExamResult.t)
| R_ExamFee (f : ExamFee.t)
| R_ExamFees (l : list ExamFee.t)
| R_204.

(** The routes of [app]. *)
Definition handle (today : date) (req : Request) : M Response :=
  match req with
  | POST_students b => R_Student <$> create_student b
  | GET_students => R_Students <$> list_students
  | GET_students_id k => R_StudentRead <$> get_student k
  | PUT_students_id k b => R_Student <$> update_student k b
  | DELETE_students_id k => (λ _, R_204) <$> delete_student k
  | POST_staff b => R_Staff <$> create_staff b
  | GET_staff => R_Staffs <$> list_staff
  | GET_staff_id k => R_Staff <$> get_staff k
  | PUT_staff_id k b => R_Staff <$> update_staff k b
  | DELETE_staff_id k => (λ _, R_204) <$> delete_staff k
  | POST_classrooms b => R_Classroom <$> create_classroom b
  | GET_classrooms => R_Classrooms <$> list_classrooms
  | POST_classrooms_add_student c s => R_Classroom <$> add_student_to_class c s
  | POST_classrooms_remove_student c s =>
      R_Classroom <$> remove_student_from_class c s
  | GET_classrooms_students c => R_Students <$> get_class_students c
  | POST_books b => R_Book <$> add_book b
  | GET_books => R_Books <$> list_books
  | GET_books_id k => R_Book <$> get_book k
  | POST_issues i => R_Issue <$> issue_book i
  | POST_returns k => R_Issue <$> return_book today k
  | GET_students_issues k => R_Issues <$> student_issues k
  | POST_results r => R_ExamResult <$> add_result r
  | GET_results => R_ExamResults <$> list_results
  | GET_students_results k => R_ExamResults <$> get_results k
  | GET_results_id k => R_ExamResult <$> get_result k
  | DELETE_results_id k => (λ _, R_204) <$> delete_result k
  | POST_fees f => R_ExamFee <$> add_fee f
  | GET_students_fees k => R_ExamFees <$> get_fees k
  | GET_fees => R_ExamFees <$> list_fees
  | GET_fees_id k => R_ExamFee <$> get_fee k
  | PUT_fees_id k f fs => R_ExamFee <$> update_fee k f fs
  | DELETE_fees_id k => (λ _, R_204) <$> delete_fee k
  end.

(** The store after a request. *)
Definition step (fk : bool) (today : date) (req : Request) (st : Store)
  : Store :=
  (run fk (handle today req) st).1.

(** The states of the program: the tables are created empty at startup and
    change by requests only. *)
Inductive reachable (fk : bool) : Store → Prop :=
| reachable_init : reachable fk empty_store
| reachable_step st today req :
    reachable fk st → reachable fk (step fk today req st).

(** * Vocabulary of the properties *)

(** ** The library tables

    [lib_step] lists the four ways in which a request can change the tables
    [book] and [issue]; [steps] is any number of requests, one after the
    other. *)

Inductive lib_step (st st' : Store) : Prop :=
| lib_same :
    book st' = book st → issue st' = issue st → lib_step st st'
| lib_add k b :
    book st !! k = None →
    Book.available_copies b = Book.total_copies b →
    book st' = <[k := b]> (book st) →
    issue st' = issue st →
    lib_step st st'
| lib_issue k i bk bk' :
    book st !! Issue.book_id i = Some bk →
    1 ≤ Book.available_copies bk →
    Book.total_copies bk' = Book.total_copies bk →
    Book.available_copies bk' = Book.available_copies bk - 1 →
    issue st !! k = None →
    book st' = <[Issue.book_id i := bk']> (book st) →
    issue st' = <[k := i]> (issue st) →
    lib_step st st'
| lib_return k i i' bk bk' :
    issue st !! k = Some i →
    Issue.return_date i = None →
    Issue.book_id i' = Issue.book_id i →
    is_Some (Issue.return_date i') →
    book st !! Issue.book_id i = Some bk →
    Book.total_copies bk' = Book.total_copies bk →
    Book.available_copies bk' = Book.available_copies bk + 1 →
    issue st' = <[k := i']> (issue st) →
    book st' = <[Issue.book_id i := bk']> (book st) →
    lib_step st st'.

(** Every issue names a book of the table. *)
Definition issues_have_books (st : Store) : Prop :=
  ∀ k i, issue st !! k = Some i → is_Some (book st !! Issue.book_id i).

(** An issue of book [b] that carries no return date. *)
Definition open_issue (b : Z) (p : Z * Issue.t) : Prop :=
  Issue.book_id p.2 = b ∧ Issue.return_date p.2 = None.

#[global] Instance open_issue_dec b p : Decision (open_issue b p).
Proof. unfold open_issue. apply _. Defined.

(** How many issues of book [b] carry no return date. *)
Definition outstanding (m : gmap Z Issue.t) (b : Z) : nat :=
  size (filter (open_issue b) m).

(** The copies of a book that are lent and the copies that are available
    never add up to more than the book has, and the available copies are
    not negative unless the book was entered with a negative total. *)
Definition copies_inv (st : Store) : Prop :=
  ∀ b bk, book st !! b = Some bk →
    Z.min 0 (Book.total_copies bk) ≤ Book.available_copies bk ∧
    Book.available_copies bk + Z.of_nat (outstanding (issue st) b)
      ≤ Book.total_copies bk.

(** The store after [issue_book] has issued [issue_] under key [k], the
    book having been [bk]. *)
Definition issued_store (st : Store) (k : Z) (issue_ : Issue.t) (bk : Book.t)
  : Store :=
  set_issue (<[k := Issue.with_id k issue_]> (issue st))
    (set_book
       (<[Issue.book_id issue_ :=
            Book.with_id (Issue.book_id issue_)
              (Book.set_available_copies (Book.available_copies bk - 1)
                 (Book.with_id (Issue.book_id issue_) bk))]> (book st))
       st).

(** The issue [i] of key [k] after [return_book], and the store after
    it, the book having been [bk]. *)
Definition returned_issue (today : date) (k : Z) (i : Issue.t) : Issue.t :=
  Issue.with_id k (Issue.set_return_date (Some today) (Issue.with_id k i)).

Definition returned_store (today : date) (st : Store) (k : Z) (i : Issue.t)
    (bk : Book.t) : Store :=
  set_book
    (<[Issue.book_id i :=
         Book.with_id (Issue.book_id i)
           (Book.set_available_copies (Book.available_copies bk + 1)
              (Book.with_id (Issue.book_id i) bk))]> (book st))
    (set_issue (<[k := returned_issue today k i]> (issue st)) st).


(** ** Sample data *)

Definition day1 : date := Date 2024 3 4.
Definition day2 : date := Date 2024 3 18.

Definition sicp : BookBase.t :=
  BookBase.make "Structure and Interpretation" "Abelson" "0262510871" 1.

Definition ada : StudentBase.t :=
  StudentBase.make "Ada" "555-0100" (Date 2008 12 10).

(** One student, one book with a single copy. *)
Definition store_one_copy : Store :=
  step false day1 (POST_books sicp)
    (step false day1 (POST_students ada) empty_store).

(** The copy has been issued to the student. *)
Definition store_lent : Store :=
  step false day1 (POST_issues (Issue.create day1 1 1)) store_one_copy.

Definition misprint : BookBase.t :=
  BookBase.make "Errata" "Anon" "0000000000" (-1).


Definition form3 : ClassroomBase.t :=
  ClassroomBase.make "Form 3" "3" "B" "Hopper".

(** A classroom and a student who is not enrolled. *)
Definition store_class : Store :=
  step false day1 (POST_classrooms form3) store_one_copy.



Definition exam_fee : ExamFee.t :=
  ExamFee.make None 1 (float_of 1500 0) (Date 2024 6 30) false.

(** A fee of the student, not paid. *)
Definition store_fee : Store :=
  step false day1 (POST_fees exam_fee) store_one_copy.

(** The object of an update whose body gave [paid] only; the other fields
    hold values that must not reach the row. *)
Definition mark_paid : ExamFee.t :=
  ExamFee.make None 0 (S754_zero false) day2 true.

(** The row of [exam_fee] as stored, and as it is after [mark_paid]. *)
Definition exam_fee_unpaid : ExamFee.t :=
  ExamFee.make (Some 1) 1 (float_of 1500 0) (Date 2024 6 30) false.
Definition exam_fee_paid : ExamFee.t :=
  ExamFee.make (Some 1) 1 (float_of 1500 0) (Date 2024 6 30) true.

(** ** Routes and tables *)

(** The routes registered with [app.get]. *)
Definition is_get (req : Request) : bool :=
  match req with
  | GET_students | GET_students_id _ | GET_staff | GET_staff_id _
  | GET_classrooms | GET_classrooms_students _ | GET_books | GET_books_id _
  | GET_students_issues _ | GET_results | GET_students_results _
  | GET_results_id _ | GET_students_fees _ | GET_fees | GET_fees_id _ => true
  | _ => false
  end.

Inductive table :=
| t_student | t_staff | t_classroom | t_classroomstudent
| t_book | t_issue | t_examresult | t_examfee.

#[global] Instance table_eq_dec : EqDecision table.
Proof. solve_decision. Defined.

(** The tables in which the handler of a route changes, adds or deletes
    rows. *)
Definition writes (req : Request) : list table :=
  match req with
  | POST_students _ | PUT_students_id _ _ => [t_student]
  | DELETE_students_id _ => [t_student; t_classroomstudent]
  | POST_staff _ | PUT_staff_id _ _ | DELETE_staff_id _ => [t_staff]
  | POST_classrooms _ => [t_classroom]
  | POST_classrooms_add_student _ _
  | POST_classrooms_remove_student _ _ => [t_classroomstudent]
  | POST_books _ => [t_book]
  | POST_issues _ | POST_returns _ => [t_book; t_issue]
  | POST_results _ | DELETE_results_id _ => [t_examresult]
  | POST_fees _ | PUT_fees_id _ _ _ | DELETE_fees_id _ => [t_examfee]
  | _ => []
  end.

(** Table [t] holds the same rows in both stores. *)
Definition same_table (t : table) (st st' : Store) : Prop :=
  match t with
  | t_student => student st' = student st
  | t_staff => staff st' = staff st
  | t_classroom => classroom st' = classroom st
  | t_classroomstudent => classroomstudent st' = classroomstudent st
  | t_book => book st' = book st
  | t_issue => issue st' = issue st
  | t_examresult => examresult st' = examresult st
  | t_examfee => examfee st' = examfee st
  end.

(** ** Lists of rows *)

(** [l] lists the rows of table [m], each once and under its key. *)
Definition lists_table {A} (with_id : Z → A → A) (m : gmap Z A) (l : list A)
  : Prop :=
  NoDup l ∧
  length l = size m ∧
  ∀ x, x ∈ l ↔ ∃ k r, m !! k = Some r ∧ x = with_id k r.

(** ** More sample data *)

(** The student's new contact number. *)
Definition ada_moved : StudentBase.t :=
  StudentBase.make "Ada" "555-0199" (Date 2008 12 10).

Definition grace : StaffBase.t :=
  StaffBase.make "Grace" "555-0142" (Date 1986 12 9).

(** One member of staff. *)
Definition store_staff : Store :=
  step false day1 (POST_staff grace) empty_store.

(** The student is enrolled in the classroom. *)
Definition store_enrolled : Store :=
  step false day1 (POST_classrooms_add_student 1 1) store_class.


(** ** The link table *)

(** Every row of the link table names a classroom and a student that
    exist. *)
Definition links_refer (st : Store) : Prop :=
  ∀ l, l ∈ classroomstudent st →
    is_Some (classroom st !! ClassroomStudent.classroom_id l) ∧
    is_Some (student st !! ClassroomStudent.student_id l).

(** ** Status codes *)

(** The routes whose handler raises an [HTTPException] with status 400. *)
Definition answers_400 (req : Request) : bool :=
  match req with
  | POST_classrooms_add_student _ _ | POST_classrooms_remove_student _ _
  | POST_issues _ | POST_returns _ => true
  | _ => false
  end.

(** ** The merge of an update *)

(** What an update of a fee is to leave in the row, field by field: the
    body's value for a field the body set, the row's own for the others. *)
Definition merged_fee (fee_id : Z) (fee old : ExamFee.t)
    (fields_set : list ExamFee.field) : ExamFee.t :=
  ExamFee.make
    (if decide (ExamFee.f_id ∈ fields_set)
     then ExamFee.id fee else Some fee_id)
    (if decide (ExamFee.f_student_id ∈ fields_set)
     then ExamFee.student_id fee else ExamFee.student_id old)
    (if decide (ExamFee.f_amount ∈ fields_set)
     then ExamFee.amount fee else ExamFee.amount old)
    (if decide (ExamFee.f_due_date ∈ fields_set)
     then ExamFee.due_date fee else ExamFee.due_date old)
    (if decide (ExamFee.f_paid ∈ fields_set)
     then ExamFee.paid fee else ExamFee.paid old).

(** The merge as the updated row gives it back: an amount that changed is
    read back from its column. *)
Definition merged_row (fee_id : Z) (fee old : ExamFee.t)
    (fields_set : list ExamFee.field) : ExamFee.t :=
  if decide (ExamFee.amount (merged_fee fee_id fee old fields_set)
             = ExamFee.amount old)
  then merged_fee fee_id fee old fields_set
  else ExamFee.as_row (merged_fee fee_id fee old fields_set).

(** The object of an update whose body gave a new amount, a new due date
    and [paid]. *)
Definition new_terms : ExamFee.t :=
  ExamFee.make None 0 (float_of 1250 0) (Date 2024 7 31) true.

Definition new_terms_set : list ExamFee.field :=
  [ExamFee.f_amount; ExamFee.f_due_date; ExamFee.f_paid].

(** A result of the student. *)
Definition midterm : ExamResult.t :=
  ExamResult.make None 1 "Midterm" (float_of 83 (-1)) (float_of 50 0).

(** ** Proof automation *)

Ltac unfold_monad :=
  change (@fmap M M_fmap) with M_fmap in *;
  change (@mbind M M_bind) with M_bind in *;
  change (@mret M M_ret) with M_ret in *;
  unfold session_get, select_all, query, execute, commit, response_model,
    raise, M_fmap, M_bind, M_ret, bind, ret, open in *.

Ltac unfold_handlers :=
  unfold handle, create_student, list_students, get_student, update_student,
    delete_student, create_staff, list_staff, get_staff, update_staff,
    delete_staff, create_classroom, list_classrooms, add_student_to_class,
    remove_student_from_class, get_class_students, add_book, list_books,
    get_book, issue_book, return_book, student_issues, add_result,
    list_results, get_results, get_result, delete_result, add_fee, get_fees,
    list_fees, get_fee, update_fee, delete_fee in *.

Ltac unfold_statements :=
  unfold INSERT_student, INSERT_staff, INSERT_classroom, INSERT_book,
    INSERT_issue, INSERT_examresult, INSERT_examfee, INSERT_classroomstudent,
    DELETE_classroomstudent, UPDATE_student, UPDATE_staff, UPDATE_book,
    UPDATE_issue, UPDATE_examfee, DELETE_student, DELETE_staff,
    DELETE_examresult, DELETE_examfee in *.

(** Case analysis on every test a handler makes. *)
Ltac handler_cases :=
  repeat (simpl in *; simplify_eq;
          try match goal with
              | |- context [match _ <$> ?o with _ => _ end] =>
                  destruct o eqn:?
              | H : context [match _ <$> ?o with _ => _ end] |- _ =>
                  destruct o eqn:?
              | |- context [match ?x with _ => _ end] =>
                  lazymatch x with
                  | context [match _ with _ => _ end] => fail
                  | _ => destruct x eqn:?
                  end
              | H : context [match ?x with _ => _ end] |- _ =>
                  lazymatch x with
                  | context [match _ with _ => _ end] => fail
                  | _ => destruct x eqn:?
                  end
              end).

(** * Properties *)

(** ** Keys *)

Lemma next_id_above {A} (m : gmap Z A) k x :
  m !! k = Some x → k < next_id m.
Proof.
  intros Hk. apply elem_of_map_to_list in Hk. unfold next_id.
  destruct (map_to_list m) as [|[k0 x0] l]; [by apply elem_of_nil in Hk|].
  assert (Hle : ∀ l' : list (Z * A), (k, x) ∈ (k0, x0) :: l' →
            k ≤ foldr (λ p acc, Z.max p.1 acc) k0 l').
  { clear. induction l' as [|[k1 x1] l' IH]; intros Hin; simpl.
    - apply list_elem_of_singleton in Hin. injection Hin as -> _. lia.
    - apply elem_of_cons in Hin as [Hin|Hin].
      + specialize (IH ltac:(rewrite Hin; left)). lia.
      + apply elem_of_cons in Hin as [Hin|Hin].
        * injection Hin as -> _. lia.
        * specialize (IH ltac:(by right)). lia. }
  specialize (Hle l Hk). lia.
Qed.

Lemma next_id_fresh {A} (m : gmap Z A) : m !! next_id m = None.
Proof.
  destruct (m !! next_id m) as [x|] eqn:E; [|done].
  apply next_id_above in E. lia.
Qed.

Lemma new_pk_fresh {A} (m : gmap Z A) id k :
  new_pk m id = Ok k → m !! k = None.
Proof.
  unfold new_pk. destruct id as [k'|].
  - destruct (m !! k') eqn:E; [done|]. by intros [= <-].
  - intros [= <-]. apply next_id_fresh.
Qed.

Lemma new_pk_given {A} (m : gmap Z A) k k' :
  new_pk m (Some k) = Ok k' → k' = k.
Proof. unfold new_pk. destruct (m !! k); [done|]. by intros [= <-]. Qed.

Lemma new_pk_error {A} (m : gmap Z A) id e :
  new_pk m id = Raise e → e = IntegrityError.
Proof.
  unfold new_pk. destruct id as [k|]; [|done].
  destruct (m !! k); [|done]. by intros [= <-].
Qed.

(** ** The library tables under a request

    Whatever the request, the tables [book] and [issue] change in one of
    four ways. *)

Lemma step_lib fk today req st : lib_step st (step fk today req st).
Proof.
  unfold step, run.
  destruct req; unfold_handlers; unfold_monad; unfold_statements;
    handler_cases; try (by apply lib_same).
  - eapply (lib_add _ _ (next_id (book st))); simpl;
      [apply next_id_fresh | | reflexivity..]; reflexivity.
  - match goal with
    | H : new_pk _ _ = Ok _ |- _ => apply new_pk_fresh in H
    end.
    match goal with
    | H : (_ <? 1) = false |- _ => apply Z.ltb_ge in H
    end.
    eapply lib_issue.
    7: reflexivity. 6: reflexivity. all: simpl; eauto.
  - match goal with
    | H : bool_decide (is_Some _) = false |- _ =>
        apply bool_decide_eq_false in H
    end.
    eapply lib_return.
    8: reflexivity. 8: reflexivity. all: simpl; eauto.
    match goal with
    | H : ¬ is_Some ?d |- ?d = None =>
        destruct d; [exfalso; eauto|done]
    end.
Qed.

(** ** Invariants of the library tables *)

Lemma outstanding_none (m : gmap Z Issue.t) b :
  (∀ k i, m !! k = Some i → Issue.book_id i ≠ b) → outstanding m b = 0%nat.
Proof.
  intros H. unfold outstanding. apply map_size_empty_iff, map_empty.
  intros k. apply map_lookup_filter_None. right. intros i Hi [Hb _].
  by apply (H k i).
Qed.

Lemma outstanding_insert_fresh (m : gmap Z Issue.t) k i b :
  m !! k = None →
  outstanding (<[k := i]> m) b =
    if decide (open_issue b (k, i)) then S (outstanding m b)
    else outstanding m b.
Proof.
  intros Hk. unfold outstanding. rewrite map_filter_insert.
  destruct (decide (open_issue b (k, i))).
  - apply map_size_insert_None, map_lookup_filter_None. by left.
  - by rewrite delete_id.
Qed.

Lemma outstanding_return (m : gmap Z Issue.t) k i i' b :
  m !! k = Some i →
  Issue.return_date i = None →
  is_Some (Issue.return_date i') →
  outstanding m b =
    if decide (Issue.book_id i = b) then S (outstanding (<[k := i']> m) b)
    else outstanding (<[k := i']> m) b.
Proof.
  intros Hk Hopen [d Hd]. unfold outstanding.
  rewrite map_filter_insert_False, map_filter_delete;
    [|unfold open_issue; simpl; rewrite Hd; by intros [_ ?]].
  destruct (decide (Issue.book_id i = b)) as [Hb|Hb].
  - assert (Hin : filter (open_issue b) m !! k = Some i)
      by (by apply map_lookup_filter_Some).
    rewrite map_size_delete, Hin. simpl.
    assert (size (filter (open_issue b) m) ≠ 0%nat); [|lia].
    intros Hz. apply map_size_empty_iff in Hz. by rewrite Hz in Hin.
  - rewrite delete_id; [done|].
    apply map_lookup_filter_None. right. intros i0 Hi0 [Hb0 _].
    simpl in Hb0. congruence.
Qed.

Lemma lib_step_inv st st' :
  lib_step st st' →
  issues_have_books st ∧ copies_inv st →
  issues_have_books st' ∧ copies_inv st'.
Proof.
  intros Hstep [Hbooks Hinv].
  destruct Hstep as
    [Hb Hi
    |k b Hk Hb0 Hb Hi
    |k i bk bk' Hbk Hav Htot Hav' Hk Hb Hi
    |k i i' bk bk' Hk Hopen Hid Hret Hbk Htot Hav' Hi Hb].
  - split.
    + intros k i. rewrite Hi, Hb. apply Hbooks.
    + intros b bk. rewrite Hi, Hb. apply Hinv.
  - assert (Hnone : ∀ k0 i, issue st !! k0 = Some i → Issue.book_id i ≠ k).
    { intros k0 i Hi0 Heq. destruct (Hbooks _ _ Hi0) as [? ?]. congruence. }
    split.
    + intros k0 i. rewrite Hi, Hb. intros Hi0.
      apply lookup_insert_is_Some'. right. by eapply Hbooks.
    + intros b0 bk0. rewrite Hi, Hb.
      destruct (decide (b0 = k)) as [->|Hne].
      * rewrite lookup_insert_eq. intros [= <-].
        rewrite (outstanding_none _ _ Hnone). lia.
      * rewrite lookup_insert_ne by done. apply Hinv.
  - split.
    + intros k0 i0. rewrite Hi, Hb. intros Hi0.
      apply lookup_insert_is_Some'.
      apply lookup_insert_Some in Hi0 as [[_ <-]|[_ Hi0]]; [by left|].
      right. by eapply Hbooks.
    + intros b0 bk0. rewrite Hi, Hb.
      rewrite (outstanding_insert_fresh _ _ _ _ Hk).
      destruct (decide (b0 = Issue.book_id i)) as [->|Hne].
      * rewrite lookup_insert_eq. intros [= <-].
        destruct (Hinv _ _ Hbk) as [Hlo Hhi].
        destruct (decide _); lia.
      * rewrite lookup_insert_ne by done. intros Hb0.
        destruct (decide _) as [[Hbi _]|_]; [simpl in Hbi; congruence|].
        by apply Hinv.
  - split.
    + intros k0 i0. rewrite Hi, Hb. intros Hi0.
      apply lookup_insert_is_Some'.
      apply lookup_insert_Some in Hi0 as [[_ <-]|[_ Hi0]].
      * left. done.
      * right. by eapply Hbooks.
    + intros b0 bk0. rewrite Hi, Hb.
      pose proof (outstanding_return _ _ _ _ b0 Hk Hopen Hret) as Hout.
      destruct (decide (b0 = Issue.book_id i)) as [->|Hne].
      * rewrite lookup_insert_eq. intros [= <-].
        destruct (Hinv _ _ Hbk) as [Hlo Hhi].
        rewrite decide_True in Hout by done. lia.
      * rewrite lookup_insert_ne by done. intros Hb0.
        rewrite decide_False in Hout by done. rewrite <- Hout.
        by apply Hinv.
Qed.

Lemma reachable_inv fk st :
  reachable fk st → issues_have_books st ∧ copies_inv st.
Proof.
  induction 1 as [|st today req _ IH].
  - split; intros k x Hk; simpl in Hk; by rewrite lookup_empty in Hk.
  - eapply lib_step_inv; [apply step_lib|exact IH].
Qed.

(** ** Requests that end in an error *)

(** A request that raises leaves the committed rows as they were; when it
    raises an [HTTPException] it has not issued a statement either. *)
Lemma handle_error today req s s' e :
  handle today req s = (s', Raise e) →
  committed s' = committed s ∧
  (∀ status_code detail, e = HTTPException status_code detail → s' = s).
Proof.
  destruct req; unfold_handlers; unfold_monad; unfold_statements;
    intros H; handler_cases; split; try done;
    try (match goal with
         | H : new_pk _ _ = Raise _ |- _ => apply new_pk_error in H; subst
         end; done).
Qed.

(** ** Issue and return, as equations *)

Lemma issue_book_run fk st issue_ :
  run fk (issue_book issue_) st =
    match book st !! Issue.book_id issue_ with
    | None => (st, Raise (HTTPException 400 "Book unavailable"))
    | Some bk =>
        if Book.available_copies bk <? 1
        then (st, Raise (HTTPException 400 "Book unavailable"))
        else match new_pk (issue st) (Issue.id issue_) with
             | Raise e => (st, Raise e)
             | Ok k =>
                 if references fk (student st) (Issue.student_id issue_)
                 then (issued_store st k issue_ bk,
                       Ok (Issue.with_id k issue_))
                 else (st, Raise IntegrityError)
             end
    end.
Proof.
  unfold run, issued_store, issue_book. unfold_monad. unfold_statements.
  simpl. destruct (book st !! Issue.book_id issue_) as [bk|]; simpl; [|done].
  destruct (Book.available_copies bk <? 1); simpl; [done|].
  destruct (new_pk (issue st) (Issue.id issue_)) as [k|e]; simpl; [|done].
  unfold references at 2.
  destruct fk; simpl.
  - rewrite lookup_insert_eq.
    rewrite (bool_decide_eq_true_2 (is_Some (Some _))) by eauto.
    rewrite andb_true_r.
    destruct (bool_decide _); done.
  - done.
Qed.

Lemma return_book_run fk today st k :
  run fk (return_book today k) st =
    match issue st !! k with
    | None => (st, Raise (HTTPException 400 "Invalid return"))
    | Some i =>
        match Issue.return_date i with
        | Some _ => (st, Raise (HTTPException 400 "Invalid return"))
        | None =>
            match book st !! Issue.book_id i with
            | None => (st, Raise AttributeError)
            | Some bk =>
                (returned_store today st k i bk,
                 Ok (returned_issue today k i))
            end
        end
    end.
Proof.
  unfold run, returned_store, returned_issue, return_book.
  unfold_monad. unfold_statements. simpl.
  destruct (issue st !! k) as [i|]; simpl; [|done].
  destruct (Issue.return_date i) as [d|] eqn:Hd; simpl; [done|].
  destruct (book st !! Issue.book_id i) as [bk|]; done.
Qed.

(** ** Concrete stores *)

Lemma store_one_copy_reachable fk : reachable fk store_one_copy.
Proof.
  replace store_one_copy with
    (step fk day1 (POST_books sicp)
       (step fk day1 (POST_students ada) empty_store))
    by (by destruct fk).
  do 2 apply reachable_step. apply reachable_init.
Qed.

Lemma store_lent_reachable fk : reachable fk store_lent.
Proof.
  replace store_lent with
    (step fk day1 (POST_issues (Issue.create day1 1 1)) store_one_copy)
    by (by destruct fk; vm_compute).
  apply reachable_step, store_one_copy_reachable.
Qed.

(** ** Availability counts *)

(** C1, as stated, fails: [add_book] takes any [total_copies]; a book added
    with [total_copies = -1] sits in a reachable store with
    [available_copies = -1], so the available copies of a book can be
    negative. *)
Lemma available_copies_negative_counterexample :
  reachable false (step false day1 (POST_books misprint) empty_store) ∧
  Book.available_copies
    <$> book (step false day1 (POST_books misprint) empty_store) !! 1
    = Some (-1) ∧
  ¬ (∀ fk st b bk, reachable fk st → book st !! b = Some bk →
       0 ≤ Book.available_copies bk ≤ Book.total_copies bk).
Proof.
  split; [apply reachable_step, reachable_init|].
  split; [by vm_compute|].
  intros H.
  destruct (H false (step false day1 (POST_books misprint) empty_store) 1
              (Book.make (Some 1) "Errata" "Anon" "0000000000" (-1) (-1)))
    as [Hlo _].
  - apply reachable_step, reachable_init.
  - by vm_compute.
  - simpl in Hlo. lia.
Qed.

(** C1, amended: in every reachable store every book has
    [available_copies <= total_copies], and [0 <= available_copies] when its
    [total_copies] is not negative; every request leaves the tables [book]
    and [issue] alone, or adds a book with [available_copies] equal to
    [total_copies], or takes one copy of a book that has at least one
    available and adds an issue, or gives one copy back for an issue that
    had no return date. *)
Theorem available_copies_bounded fk st b bk :
  reachable fk st →
  book st !! b = Some bk →
  Book.available_copies bk ≤ Book.total_copies bk ∧
  (0 ≤ Book.total_copies bk → 0 ≤ Book.available_copies bk) ∧
  (∀ today req, lib_step st (step fk today req st)).
Proof.
  intros Hreach Hb.
  destruct (reachable_inv _ _ Hreach) as [_ Hinv].
  destruct (Hinv _ _ Hb) as [Hlo Hhi].
  repeat split; [lia|lia|intros; apply step_lib].
Qed.

Lemma available_copies_bounded_witness :
  ∃ bk, book store_lent !! 1 = Some bk ∧
        Book.available_copies bk ≤ Book.total_copies bk ∧
        (0 ≤ Book.total_copies bk → 0 ≤ Book.available_copies bk).
Proof.
  eexists. split; [by vm_compute|].
  destruct (available_copies_bounded false store_lent 1 _
              (store_lent_reachable false) ltac:(by vm_compute))
    as (H1 & H2 & _).
  exact (conj H1 H2).
Defined.

(** ** Rejected requests write nothing *)

(** C2: when the book exists with no copy available, [issue_book] raises
    400 with the session untouched, so the store and the book's count stay
    as they were.  In general a request that raises leaves the committed
    store unchanged, and one that raises an [HTTPException] has issued no
    statement at all. *)
Theorem issue_book_unavailable_rejected fk today st :
  (∀ issue_ bk,
     book st !! Issue.book_id issue_ = Some bk →
     Book.available_copies bk = 0 →
     issue_book issue_ (open fk st)
       = (open fk st, Raise (HTTPException 400 "Book unavailable")) ∧
     run fk (handle today (POST_issues issue_)) st
       = (st, Raise (HTTPException 400 "Book unavailable")) ∧
     book (step fk today (POST_issues issue_) st) !! Issue.book_id issue_
       = Some bk) ∧
  (∀ req s' e,
     handle today req (open fk st) = (s', Raise e) →
     committed s' = st ∧
     step fk today req st = st ∧
     (∀ status_code detail,
        e = HTTPException status_code detail → s' = open fk st)).
Proof.
  split.
  - intros issue_ bk Hb Hav.
    assert (H : issue_book issue_ (open fk st)
                = (open fk st, Raise (HTTPException 400 "Book unavailable"))).
    { unfold issue_book. unfold_monad. simpl. rewrite Hb. simpl.
      rewrite Hav. done. }
    split; [exact H|].
    assert (Hrun : run fk (handle today (POST_issues issue_)) st
                   = (st, Raise (HTTPException 400 "Book unavailable"))).
    { unfold run, handle. change (@fmap M M_fmap) with M_fmap.
      unfold M_fmap, bind. fold (open fk st). rewrite H. done. }
    split; [exact Hrun|].
    unfold step. rewrite Hrun. exact Hb.
  - intros req s' e H.
    destruct (handle_error _ _ _ _ _ H) as [Hc Hs].
    split; [exact Hc|]. split; [|exact Hs].
    unfold step, run. rewrite H. exact Hc.
Qed.

Lemma issue_book_unavailable_rejected_witness :
  run false (handle day2 (POST_issues (Issue.create day2 1 1))) store_lent
    = (store_lent, Raise (HTTPException 400 "Book unavailable")).
Proof.
  refine (proj1 (proj2 (proj1
            (issue_book_unavailable_rejected false day2 store_lent)
            (Issue.create day2 1 1)
            (Book.make (Some 1) "Structure and Interpretation" "Abelson"
               "0262510871" 1 0) _ _))).
  - by vm_compute.
  - reflexivity.
Defined.

(** ** The book of a stored issue *)

(** C10: [return_book] reads [available_copies] of the looked-up book
    without a guard, so a missing book would raise [AttributeError] with
    nothing committed; but no request removes a book, every stored issue
    of a reachable store names a book of the table, and in a reachable
    store [return_book] never raises that error. *)
Theorem return_book_lookup_safe fk st :
  reachable fk st →
  issues_have_books st ∧
  (∀ today req b,
     is_Some (book st !! b) → is_Some (book (step fk today req st) !! b)) ∧
  (∀ today k, (run fk (return_book today k) st).2 ≠ Raise AttributeError) ∧
  (∀ st0 today k i,
     issue st0 !! k = Some i → Issue.return_date i = None →
     book st0 !! Issue.book_id i = None →
     run fk (return_book today k) st0 = (st0, Raise AttributeError)).
Proof.
  intros Hreach. destruct (reachable_inv _ _ Hreach) as [Hbooks _].
  split; [exact Hbooks|]. split; [|split].
  - intros today req b Hb.
    destruct (step_lib fk today req st)
      as [-> _|? ? _ _ -> _|? ? ? ? _ _ _ _ _ -> _|? ? ? ? ? _ _ _ _ _ _ _ _ ->];
      try done; apply lookup_insert_is_Some'; by right.
  - intros today k. rewrite return_book_run.
    destruct (issue st !! k) as [i|] eqn:Hi; [|done].
    destruct (Issue.return_date i); [done|].
    destruct (Hbooks _ _ Hi) as [bk ->]. done.
  - intros st0 today k i Hi Hret Hb.
    rewrite return_book_run, Hi, Hret, Hb. done.
Qed.

Lemma return_book_lookup_safe_witness :
  issues_have_books store_lent ∧
  (run false (return_book day2 1) store_lent).2 ≠ Raise AttributeError.
Proof.
  destruct (return_book_lookup_safe false store_lent
              (store_lent_reachable false)) as (H1 & _ & H3 & _).
  exact (conj H1 (H3 day2 1)).
Defined.

(** ** Returned issues stay returned *)




(** ** Returning a book *)



(** ** Issue, then return *)




(** ** Issues that arrive with a return date *)



(** ** Rosters *)

Lemma in_Classroom_students st class_id student_id s :
  student st !! student_id = Some s →
  Student.with_id student_id s ∈ Classroom_students st class_id ↔
  ClassroomStudent.make class_id student_id ∈ classroomstudent st.
Proof.
  intros Hs. unfold Classroom_students. rewrite list_elem_of_omap. split.
  - intros ([c s'] & Hin & Hf). simpl in Hf.
    destruct (decide (c = class_id)) as [->|]; [|done].
    destruct (student st !! s') as [r|]; [|done].
    simpl in Hf. injection Hf as Hid _. by subst.
  - intros Hin. exists (ClassroomStudent.make class_id student_id).
    split; [done|]. simpl. rewrite decide_True by done. by rewrite Hs.
Qed.

Lemma add_student_to_class_eq fk st class_id student_id :
  add_student_to_class class_id student_id (open fk st) =
    match classroom st !! class_id, student st !! student_id with
    | Some c, Some s =>
        if bool_decide (ClassroomStudent.make class_id student_id
                          ∈ classroomstudent st)
        then (open fk st, Raise (HTTPException 400 "Student already in class"))
        else (open fk
                (set_classroomstudent
                   (classroomstudent st
                      ++ [ClassroomStudent.make class_id student_id]) st),
              Ok (Classroom.with_id class_id c))
    | _, _ =>
        (open fk st, Raise (HTTPException 404 "Class or Student not found"))
    end.
Proof.
  unfold add_student_to_class. unfold_monad. unfold_statements. simpl.
  destruct (classroom st !! class_id) as [c|] eqn:Hc; simpl;
    destruct (student st !! student_id) as [s|] eqn:Hs; simpl; try done.
  pose proof (in_Classroom_students st class_id student_id s Hs) as Hin.
  destruct (bool_decide (ClassroomStudent.make class_id student_id
                           ∈ classroomstudent st)) eqn:Hl.
  - apply bool_decide_eq_true in Hl.
    rewrite bool_decide_eq_true_2 by (by apply Hin). done.
  - apply bool_decide_eq_false in Hl.
    rewrite bool_decide_eq_false_2 by (by rewrite Hin).
    simpl. rewrite (bool_decide_eq_false_2 _ Hl).
    unfold references. rewrite Hc, Hs.
    destruct fk; simpl;
      rewrite ?(bool_decide_eq_true_2 (is_Some (Some _))) by eauto; done.
Qed.

Lemma remove_student_from_class_eq fk st class_id student_id :
  remove_student_from_class class_id student_id (open fk st) =
    match classroom st !! class_id, student st !! student_id with
    | Some c, Some s =>
        if bool_decide (ClassroomStudent.make class_id student_id
                          ∈ classroomstudent st)
        then (open fk
                (set_classroomstudent
                   (filter (λ r, r ≠ ClassroomStudent.make class_id student_id)
                      (classroomstudent st)) st),
              Ok (Classroom.with_id class_id c))
        else (open fk st, Raise (HTTPException 400 "Student not in class"))
    | _, _ =>
        (open fk st, Raise (HTTPException 404 "Class or Student not found"))
    end.
Proof.
  unfold remove_student_from_class. unfold_monad. unfold_statements. simpl.
  destruct (classroom st !! class_id) as [c|] eqn:Hc; simpl;
    destruct (student st !! student_id) as [s|] eqn:Hs; simpl; try done.
  pose proof (in_Classroom_students st class_id student_id s Hs) as Hin.
  destruct (bool_decide (ClassroomStudent.make class_id student_id
                           ∈ classroomstudent st)) eqn:Hl.
  - apply bool_decide_eq_true in Hl.
    rewrite bool_decide_eq_false_2; [done|]. intros Hn. by apply Hn, Hin.
  - apply bool_decide_eq_false in Hl.
    rewrite bool_decide_eq_true_2; [done|]. by rewrite Hin.
Qed.





(** ** References to missing rows *)




(** ** Updating a fee *)

(** The loop of [update_fee], field by field: a field takes the request's
    value when the request set it and keeps its own otherwise. *)
Lemma setattr_loop fee db_fee fields_set :
  let r := foldl (ExamFee.setattr_from fee) db_fee
             (ExamFee.dict_exclude_unset fields_set) in
  ExamFee.id r
    = (if decide (ExamFee.f_id ∈ fields_set)
       then ExamFee.id fee else ExamFee.id db_fee) ∧
  ExamFee.student_id r
    = (if decide (ExamFee.f_student_id ∈ fields_set)
       then ExamFee.student_id fee else ExamFee.student_id db_fee) ∧
  ExamFee.amount r
    = (if decide (ExamFee.f_amount ∈ fields_set)
       then ExamFee.amount fee else ExamFee.amount db_fee) ∧
  ExamFee.due_date r
    = (if decide (ExamFee.f_due_date ∈ fields_set)
       then ExamFee.due_date fee else ExamFee.due_date db_fee) ∧
  ExamFee.paid r
    = (if decide (ExamFee.f_paid ∈ fields_set)
       then ExamFee.paid fee else ExamFee.paid db_fee).
Proof.
  unfold ExamFee.dict_exclude_unset, ExamFee.fields.
  rewrite !filter_cons, filter_nil.
  repeat (destruct (decide (_ ∈ fields_set))); simpl; done.
Qed.

Lemma setattr_loop_merged fee fee_id old fields_set :
  foldl (ExamFee.setattr_from fee) (ExamFee.with_id fee_id old)
    (ExamFee.dict_exclude_unset fields_set)
  = merged_fee fee_id fee old fields_set.
Proof.
  unfold merged_fee, ExamFee.dict_exclude_unset, ExamFee.fields.
  rewrite !filter_cons, filter_nil.
  repeat (destruct (decide (_ ∈ fields_set))); reflexivity.
Qed.

(** C7: [update_fee] on an existing fee overwrites exactly the fields the
    request set.  It succeeds whenever the engine accepts the merged row
    (its key is the fee's own or a free one, a changed amount is no NaN, a
    changed [student_id] names a student where foreign keys are enforced),
    and then stores and returns the row that has the request's value in
    each field the request set and the old value in every other field, a
    changed amount as its column gives it back.  Whenever it succeeds the
    returned and stored row is that merge, field by field (the amount up
    to the sign of a zero), and the other fees are as they were.  A
    request that sets [paid] only always succeeds, and the stored row
    differs from the old one in [paid] at most. *)
Theorem update_fee_partial fk st fee_id fee fields_set old :
  examfee st !! fee_id = Some old →
  (∀ k',
     ExamFee.id (merged_fee fee_id fee old fields_set) = Some k' →
     k' = fee_id ∨ examfee st !! k' = None →
     int64 k' = true →
     int64 (ExamFee.student_id (merged_fee fee_id fee old fields_set))
       = true →
     ExamFee.amount (merged_fee fee_id fee old fields_set)
       = ExamFee.amount old ∨
     is_nan (ExamFee.amount (merged_fee fee_id fee old fields_set))
       = false →
     ExamFee.student_id (merged_fee fee_id fee old fields_set)
       = ExamFee.student_id old ∨
     references fk (student st)
       (ExamFee.student_id (merged_fee fee_id fee old fields_set)) = true →
     run fk (update_fee fee_id fee fields_set) st
       = (set_examfee
            (<[k' := merged_row fee_id fee old fields_set]>
               (delete fee_id (examfee st))) st,
          Ok (merged_row fee_id fee old fields_set))) ∧
  (∀ st' r,
     run fk (update_fee fee_id fee fields_set) st = (st', Ok r) →
     ExamFee.id r
       = (if decide (ExamFee.f_id ∈ fields_set)
          then ExamFee.id fee else Some fee_id) ∧
     ExamFee.student_id r
       = (if decide (ExamFee.f_student_id ∈ fields_set)
          then ExamFee.student_id fee else ExamFee.student_id old) ∧
     REAL (ExamFee.amount r)
       = REAL (if decide (ExamFee.f_amount ∈ fields_set)
               then ExamFee.amount fee else ExamFee.amount old) ∧
     (ExamFee.f_amount ∉ fields_set →
      ExamFee.amount r = ExamFee.amount old) ∧
     ExamFee.due_date r
       = (if decide (ExamFee.f_due_date ∈ fields_set)
          then ExamFee.due_date fee else ExamFee.due_date old) ∧
     ExamFee.paid r
       = (if decide (ExamFee.f_paid ∈ fields_set)
          then ExamFee.paid fee else ExamFee.paid old) ∧
     (∃ k, ExamFee.id r = Some k ∧ examfee st' !! k = Some r ∧
           ∀ j, j ≠ fee_id → j ≠ k → examfee st' !! j = examfee st !! j)) ∧
  (fields_set = [ExamFee.f_paid] →
   run fk (update_fee fee_id fee fields_set) st
     = (set_examfee
          (<[fee_id := ExamFee.make (Some fee_id) (ExamFee.student_id old)
                         (ExamFee.amount old) (ExamFee.due_date old)
                         (ExamFee.paid fee)]> (examfee st)) st,
        Ok (ExamFee.make (Some fee_id) (ExamFee.student_id old)
              (ExamFee.amount old) (ExamFee.due_date old)
              (ExamFee.paid fee)))).
Proof.
  intros Hold.
  assert (Hrun : run fk (update_fee fee_id fee fields_set) st
            = match UPDATE_examfee fee_id
                      (merged_fee fee_id fee old fields_set) fk st with
              | Ok (st', r) => (st', Ok r)
              | Raise e => (st, Raise e)
              end).
  { unfold run, update_fee. unfold_monad. simpl. rewrite Hold. simpl.
    rewrite setattr_loop_merged.
    by destruct (UPDATE_examfee _ _ _ _) as [[? ?]|]. }
  rewrite Hrun. clear Hrun.
  assert (Hrow : (if bool_decide (Some (ExamFee.amount old)
                       = Some (ExamFee.amount
                                 (merged_fee fee_id fee old fields_set)))
                  then merged_fee fee_id fee old fields_set
                  else ExamFee.as_row (merged_fee fee_id fee old fields_set))
                 = merged_row fee_id fee old fields_set).
  { unfold merged_row. case_decide as Heq.
    - by rewrite bool_decide_eq_true_2 by (by rewrite Heq).
    - by rewrite bool_decide_eq_false_2 by (intros [= ?]; by apply Heq). }
  assert (Hfields :
    ExamFee.id (merged_row fee_id fee old fields_set)
      = ExamFee.id (merged_fee fee_id fee old fields_set) ∧
    ExamFee.student_id (merged_row fee_id fee old fields_set)
      = ExamFee.student_id (merged_fee fee_id fee old fields_set) ∧
    REAL (ExamFee.amount (merged_row fee_id fee old fields_set))
      = REAL (ExamFee.amount (merged_fee fee_id fee old fields_set)) ∧
    (ExamFee.f_amount ∉ fields_set →
     ExamFee.amount (merged_row fee_id fee old fields_set)
       = ExamFee.amount old) ∧
    ExamFee.due_date (merged_row fee_id fee old fields_set)
      = ExamFee.due_date (merged_fee fee_id fee old fields_set) ∧
    ExamFee.paid (merged_row fee_id fee old fields_set)
      = ExamFee.paid (merged_fee fee_id fee old fields_set)).
  { clear Hrow. unfold merged_row.
    destruct (decide (ExamFee.amount (merged_fee fee_id fee old fields_set)
                      = ExamFee.amount old)) as [Heq|Heq].
    - repeat split; done.
    - repeat split; try done.
      + simpl. by destruct (if decide _ then _ else _).
      + intros Hn. exfalso. apply Heq. simpl. by rewrite decide_False. }
  remember (merged_fee fee_id fee old fields_set) as m eqn:Hm.
  remember (merged_row fee_id fee old fields_set) as row eqn:Hr.
  unfold UPDATE_examfee. rewrite Hold. cbn [fmap option_fmap option_map].
  rewrite Hrow. clear Hrow.
  split; [|split].
  - intros k' Hk' Hfree _ _ Hamount Hstudent. rewrite Hk'.
    assert (bool_decide (k' ≠ fee_id)
            && bool_decide (is_Some (examfee st !! k')) = false) as ->.
    { destruct Hfree as [->|Hnone].
      - by rewrite bool_decide_eq_false_2 by (intros H; by apply H).
      - rewrite (bool_decide_eq_false_2 (is_Some _)), andb_false_r; [done|].
        rewrite Hnone. by intros [? ?]. }
    assert (bool_decide (Some (ExamFee.amount old) = Some (ExamFee.amount m))
            || negb (is_nan (ExamFee.amount m)) = true) as ->.
    { destruct Hamount as [->| ->]; [|by rewrite orb_true_r].
      by rewrite bool_decide_eq_true_2. }
    assert (bool_decide (Some (ExamFee.student_id old)
                         = Some (ExamFee.student_id m))
            || references fk (student st) (ExamFee.student_id m) = true)
      as ->.
    { destruct Hstudent as [->| ->]; [|by rewrite orb_true_r].
      by rewrite bool_decide_eq_true_2. }
    done.
  - intros st' r.
    destruct (ExamFee.id m) as [k|] eqn:Hk; [|done].
    destruct (bool_decide (k ≠ fee_id) && _); [done|].
    destruct (_ && _); [|done].
    intros [= <- <-].
    destruct Hfields as (Hid & Hsid & Ham & Hkeep & Hdue & Hpaid).
    rewrite Hid, Hsid, Ham, Hdue, Hpaid.
    split; [by rewrite <- Hk, Hm|].
    do 2 (split; [by rewrite Hm|]).
    split; [done|].
    do 2 (split; [by rewrite Hm|]).
    exists k. split; [done|].
    split; [simpl; apply lookup_insert_eq|].
    intros j Hj Hjk. simpl.
    by rewrite lookup_insert_ne, lookup_delete_ne.
  - intros ->. subst row m. unfold merged_row, merged_fee. simpl.
    rewrite bool_decide_eq_false_2 by (intros H; by apply H). simpl.
    rewrite !bool_decide_eq_true_2 by done. simpl.
    rewrite decide_True by done.
    by rewrite insert_delete_eq.
Qed.

Lemma update_fee_partial_witness :
  run false (update_fee 1 new_terms new_terms_set) store_fee
    = (set_examfee
         (<[1 := merged_row 1 new_terms exam_fee_unpaid new_terms_set]>
            (delete 1 (examfee store_fee))) store_fee,
       Ok (merged_row 1 new_terms exam_fee_unpaid new_terms_set)) ∧
  run false (update_fee 1 mark_paid [ExamFee.f_paid]) store_fee
    = (set_examfee (<[1 := exam_fee_paid]> (examfee store_fee)) store_fee,
       Ok exam_fee_paid).
Proof.
  destruct (update_fee_partial false store_fee 1 new_terms new_terms_set
              exam_fee_unpaid ltac:(by vm_compute)) as (Hmerge & _ & _).
  destruct (update_fee_partial false store_fee 1 mark_paid [ExamFee.f_paid]
              exam_fee_unpaid ltac:(by vm_compute)) as (_ & _ & Hpaid).
  split.
  - apply (Hmerge 1); [reflexivity|by left|reflexivity|reflexivity| |].
    + right. reflexivity.
    + left. reflexivity.
  - apply Hpaid. reflexivity.
Defined.

(** ** Create, then get *)

Lemma StudentRead_validate_ok st k s :
  issues_have_books st →
  ∃ v, StudentRead_validate st (Student.with_id k s) = Some v ∧
       StudentRead.id v = k ∧
       StudentRead.name v = Student.name s ∧
       StudentRead.contact_number v = Student.contact_number s ∧
       StudentRead.dob v = Student.dob s.
Proof.
  intros Hbooks. unfold StudentRead_validate. simpl.
  assert (H1 : is_Some (mapM ClassroomRead_validate (Student_classrooms st k))).
  { apply mapM_is_Some, Forall_forall. intros c Hc.
    apply list_elem_of_omap in Hc as (l & _ & Hl).
    destruct (decide _); [|done].
    apply fmap_Some in Hl as (c0 & _ & ->). by eexists. }
  assert (H2 : is_Some (mapM (IssueRead_validate st)
                  (select_where_student Issue.with_id Issue.student_id
                     (issue st) k))).
  { apply mapM_is_Some, Forall_forall. intros i Hi.
    apply list_elem_of_fmap in Hi as ([k0 i0] & -> & Hi).
    apply list_elem_of_filter in Hi as [_ Hi].
    apply elem_of_map_to_list in Hi.
    destruct (Hbooks _ _ Hi) as [bk Hbk].
    unfold IssueRead_validate, Issue_book, compose. simpl.
    rewrite Hbk. simpl. by eexists. }
  assert (H3 : is_Some (mapM ExamFeeRead_validate
                  (select_where_student ExamFee.with_id ExamFee.student_id
                     (examfee st) k))).
  { apply mapM_is_Some, Forall_forall. intros f Hf.
    apply list_elem_of_fmap in Hf as ([k0 f0] & -> & _). by eexists. }
  destruct H1 as [l1 ->], H2 as [l2 ->], H3 as [l3 ->]. simpl.
  eexists. split; [reflexivity|]. done.
Qed.

Lemma get_student_run fk st k :
  run fk (get_student k) st =
    match student st !! k with
    | None => (st, Raise (HTTPException 404 "Student not found"))
    | Some s =>
        match StudentRead_validate st (Student.with_id k s) with
        | Some v => (st, Ok v)
        | None => (st, Raise ResponseValidationError)
        end
    end.
Proof.
  unfold run, get_student. unfold_monad. simpl.
  destruct (student st !! k) as [s|]; simpl; [|done].
  by destruct (StudentRead_validate st (Student.with_id k s)).
Qed.

Lemma add_book_run fk st b :
  run fk (add_book b) st =
    if int64 (BookBase.total_copies b)
    then (set_book
            (<[next_id (book st) :=
                 Book.with_id (next_id (book st))
                   (Book.of_base b (BookBase.total_copies b))]> (book st))
            st,
          Ok (Book.with_id (next_id (book st))
                (Book.of_base b (BookBase.total_copies b))))
    else (st, Raise OverflowError).
Proof.
  unfold run, add_book. unfold_monad. unfold INSERT_book.
  cbn [Book.total_copies Book.available_copies Book.of_base].
  rewrite andb_diag. by destruct (int64 _).
Qed.

Lemma add_result_run fk st r :
  run fk (add_result r) st =
    if int64_opt (ExamResult.id r) && int64 (ExamResult.student_id r)
    then match new_pk (examresult st) (ExamResult.id r) with
         | Raise e => (st, Raise e)
         | Ok k =>
             if negb (is_nan (ExamResult.marks_obtained r))
                && negb (is_nan (ExamResult.max_marks r))
                && references fk (student st) (ExamResult.student_id r)
             then (set_examresult
                     (<[k := ExamResult.with_id k (ExamResult.as_row r)]>
                        (examresult st)) st,
                   Ok (ExamResult.with_id k (ExamResult.as_row r)))
             else (st, Raise IntegrityError)
         end
    else (st, Raise OverflowError).
Proof.
  unfold run, add_result. unfold_monad. unfold INSERT_examresult.
  cbn [txn foreign_keys committed].
  destruct (_ && int64 _); [|done].
  destruct (new_pk _ _); [|done]. by destruct (_ && references _ _ _).
Qed.

Lemma add_fee_run fk st f :
  run fk (add_fee f) st =
    if int64_opt (ExamFee.id f) && int64 (ExamFee.student_id f)
    then match new_pk (examfee st) (ExamFee.id f) with
         | Raise e => (st, Raise e)
         | Ok k =>
             if negb (is_nan (ExamFee.amount f))
                && references fk (student st) (ExamFee.student_id f)
             then (set_examfee
                     (<[k := ExamFee.with_id k (ExamFee.as_row f)]>
                        (examfee st)) st,
                   Ok (ExamFee.with_id k (ExamFee.as_row f)))
             else (st, Raise IntegrityError)
         end
    else (st, Raise OverflowError).
Proof.
  unfold run, add_fee. unfold_monad. unfold INSERT_examfee.
  cbn [txn foreign_keys committed].
  destruct (_ && int64 _); [|done].
  destruct (new_pk _ _); [|done]. by destruct (_ && references _ _ _).
Qed.

Lemma get_result_run fk st k :
  run fk (get_result k) st =
    match examresult st !! k with
    | None => (st, Raise (HTTPException 404 "Result not found"))
    | Some r => (st, Ok (ExamResult.with_id k r))
    end.
Proof.
  unfold run, get_result. unfold_monad. simpl.
  by destruct (examresult st !! k).
Qed.

Lemma get_fee_run fk st k :
  run fk (get_fee k) st =
    match examfee st !! k with
    | None => (st, Raise (HTTPException 404 "Fee not found"))
    | Some f => (st, Ok (ExamFee.with_id k f))
    end.
Proof.
  unfold run, get_fee. unfold_monad. simpl.
  by destruct (examfee st !! k).
Qed.

(** C8: a create returns a record whose [id] is set and whose fields are
    the request's (a float as its column gives it back), and a get with
    that id, run on the store the create leaves, returns the same field
    values.  [create_student],
    [create_staff] and [create_classroom] always succeed; [add_book]
    succeeds when [total_copies] is a 64-bit integer; [add_result] and
    [add_fee] succeed for a body without id whose [student_id] is a 64-bit
    integer (and names a student, where foreign keys are enforced) and
    whose floats are no NaN; [issue_book] succeeds for a body without id
    when the book has a copy.  Where one of the three succeeds on any
    other body, the same holds.  Classrooms and issues have no get by id:
    the row is found in its table under the id it was given. *)
Theorem create_then_get fk st :
  reachable fk st →
  (∀ b, ∃ st' r k v,
     run fk (create_student b) st = (st', Ok r) ∧
     Student.id r = Some k ∧
     Student.name r = StudentBase.name b ∧
     Student.contact_number r = StudentBase.contact_number b ∧
     Student.dob r = StudentBase.dob b ∧
     run fk (get_student k) st' = (st', Ok v) ∧
     StudentRead.id v = k ∧
     StudentRead.name v = Student.name r ∧
     StudentRead.contact_number v = Student.contact_number r ∧
     StudentRead.dob v = Student.dob r) ∧
  (∀ b, ∃ st' r k,
     run fk (create_staff b) st = (st', Ok r) ∧
     Staff.id r = Some k ∧
     Staff.name r = StaffBase.name b ∧
     Staff.contact_number r = StaffBase.contact_number b ∧
     Staff.dob r = StaffBase.dob b ∧
     run fk (get_staff k) st' = (st', Ok r)) ∧
  (∀ b, int64 (BookBase.total_copies b) = true →
     ∃ st' r k,
       run fk (add_book b) st = (st', Ok r) ∧
       Book.id r = Some k ∧
       Book.title r = BookBase.title b ∧
       Book.author r = BookBase.author b ∧
       Book.isbn r = BookBase.isbn b ∧
       Book.total_copies r = BookBase.total_copies b ∧
       Book.available_copies r = BookBase.total_copies b ∧
       run fk (get_book k) st' = (st', Ok r)) ∧
  (∀ b, ∃ st' r k,
     run fk (create_classroom b) st = (st', Ok r) ∧
     Classroom.id r = Some k ∧
     Classroom.class_name r = ClassroomBase.class_name b ∧
     Classroom.std r = ClassroomBase.std b ∧
     Classroom.sec r = ClassroomBase.sec b ∧
     Classroom.class_teacher r = ClassroomBase.class_teacher b ∧
     classroom st' !! k = Some r) ∧
  (∀ x bk,
     Issue.id x = None →
     int64 (Issue.student_id x) = true →
     int64 (Issue.book_id x) = true →
     book st !! Issue.book_id x = Some bk →
     1 ≤ Book.available_copies bk →
     references fk (student st) (Issue.student_id x) = true →
     ∃ st' k,
       run fk (issue_book x) st = (st', Ok (Issue.with_id k x)) ∧
       issue st' !! k = Some (Issue.with_id k x)) ∧
  (∀ x st' r,
     run fk (issue_book x) st = (st', Ok r) →
     ∃ k, Issue.id r = Some k ∧
          r = Issue.with_id k x ∧
          issue st' !! k = Some r) ∧
  (∀ x,
     ExamResult.id x = None →
     int64 (ExamResult.student_id x) = true →
     is_nan (ExamResult.marks_obtained x) = false →
     is_nan (ExamResult.max_marks x) = false →
     references fk (student st) (ExamResult.student_id x) = true →
     ∃ st' r k,
       run fk (add_result x) st = (st', Ok r) ∧
       ExamResult.id r = Some k ∧
       ExamResult.student_id r = ExamResult.student_id x ∧
       ExamResult.exam_name r = ExamResult.exam_name x ∧
       ExamResult.marks_obtained r = REAL (ExamResult.marks_obtained x) ∧
       ExamResult.max_marks r = REAL (ExamResult.max_marks x) ∧
       run fk (get_result k) st' = (st', Ok r)) ∧
  (∀ x st' r,
     run fk (add_result x) st = (st', Ok r) →
     ∃ k, ExamResult.id r = Some k ∧
          r = ExamResult.with_id k (ExamResult.as_row x) ∧
          run fk (get_result k) st' = (st', Ok r)) ∧
  (∀ x,
     ExamFee.id x = None →
     int64 (ExamFee.student_id x) = true →
     is_nan (ExamFee.amount x) = false →
     references fk (student st) (ExamFee.student_id x) = true →
     ∃ st' r k,
       run fk (add_fee x) st = (st', Ok r) ∧
       ExamFee.id r = Some k ∧
       ExamFee.student_id r = ExamFee.student_id x ∧
       ExamFee.amount r = REAL (ExamFee.amount x) ∧
       ExamFee.due_date r = ExamFee.due_date x ∧
       ExamFee.paid r = ExamFee.paid x ∧
       run fk (get_fee k) st' = (st', Ok r)) ∧
  (∀ x st' r,
     run fk (add_fee x) st = (st', Ok r) →
     ∃ k, ExamFee.id r = Some k ∧
          r = ExamFee.with_id k (ExamFee.as_row x) ∧
          run fk (get_fee k) st' = (st', Ok r)).
Proof.
  intros Hreach. destruct (reachable_inv _ _ Hreach) as [Hbooks _].
  repeat apply conj.
  - intros b.
    set (k := next_id (student st)).
    set (r := Student.with_id k (Student.of_base b)).
    set (st' := set_student (<[k := r]> (student st)) st).
    destruct (StudentRead_validate_ok st' k r Hbooks)
      as (v & Hv & Hvid & Hvn & Hvc & Hvd).
    exists st', r, k, v.
    split; [reflexivity|]. repeat (split; [done|]).
    split; [|done].
    rewrite get_student_run. simpl. rewrite lookup_insert_eq.
    by rewrite Hv.
  - intros b. eexists _, _, (next_id (staff st)).
    split; [reflexivity|]. repeat (split; [done|]).
    unfold run, get_staff. unfold_monad. simpl.
    by rewrite lookup_insert_eq.
  - intros b Hb. eexists _, _, (next_id (book st)).
    rewrite add_book_run, Hb.
    split; [reflexivity|]. repeat (split; [done|]).
    unfold run, get_book. unfold_monad. simpl.
    by rewrite lookup_insert_eq.
  - intros b. eexists _, _, (next_id (classroom st)).
    split; [reflexivity|]. repeat (split; [done|]). simpl.
    by rewrite lookup_insert_eq.
  - intros x bk Hid _ _ Hb Hav Href.
    rewrite issue_book_run, Hb, Hid, Href. simpl.
    destruct (Z.ltb_spec (Book.available_copies bk) 1); [lia|].
    eexists _, _. split; [reflexivity|]. simpl. apply lookup_insert_eq.
  - intros x st' r. rewrite issue_book_run.
    destruct (book st !! Issue.book_id x) as [bk|]; [|done].
    destruct (Book.available_copies bk <? 1); [done|].
    destruct (new_pk (issue st) (Issue.id x)) as [k|]; [|done].
    destruct (references fk (student st) (Issue.student_id x)); [|done].
    intros [= <- <-]. exists k. repeat split. simpl.
    by rewrite lookup_insert_eq.
  - intros x Hid Hsid Hm1 Hm2 Href.
    rewrite add_result_run, Hid, Hsid, Hm1, Hm2, Href. simpl.
    eexists _, _, _. split; [reflexivity|]. repeat (split; [done|]).
    rewrite get_result_run. simpl. by rewrite lookup_insert_eq.
  - intros x st' r. rewrite add_result_run.
    destruct (_ && int64 _); [|done].
    destruct (new_pk (examresult st) (ExamResult.id x)) as [k|]; [|done].
    destruct (_ && references _ _ _); [|done].
    intros [= <- <-]. exists k. repeat split.
    rewrite get_result_run. simpl. by rewrite lookup_insert_eq.
  - intros x Hid Hsid Hnan Href.
    rewrite add_fee_run, Hid, Hsid, Hnan, Href. simpl.
    eexists _, _, _. split; [reflexivity|]. repeat (split; [done|]).
    rewrite get_fee_run. simpl. by rewrite lookup_insert_eq.
  - intros x st' r. rewrite add_fee_run.
    destruct (_ && int64 _); [|done].
    destruct (new_pk (examfee st) (ExamFee.id x)) as [k|]; [|done].
    destruct (_ && references _ _ _); [|done].
    intros [= <- <-]. exists k. repeat split.
    rewrite get_fee_run. simpl. by rewrite lookup_insert_eq.
Qed.

Lemma create_then_get_witness :
  (∃ st' r k v,
     run false (create_student ada) store_lent = (st', Ok r) ∧
     Student.id r = Some k ∧
     run false (get_student k) st' = (st', Ok v) ∧
     StudentRead.id v = k ∧
     StudentRead.name v = Student.name r ∧
     StudentRead.contact_number v = Student.contact_number r ∧
     StudentRead.dob v = Student.dob r) ∧
  (∃ st' r k,
     run false (add_book sicp) store_lent = (st', Ok r) ∧
     Book.id r = Some k ∧
     run false (get_book k) st' = (st', Ok r)) ∧
  (∃ st' r k,
     run false (add_result midterm) store_lent = (st', Ok r) ∧
     ExamResult.id r = Some k ∧
     ExamResult.marks_obtained r = ExamResult.marks_obtained midterm ∧
     ExamResult.max_marks r = ExamResult.max_marks midterm ∧
     run false (get_result k) st' = (st', Ok r)) ∧
  (∃ st' r k,
     run false (add_fee exam_fee) store_lent = (st', Ok r) ∧
     ExamFee.id r = Some k ∧
     ExamFee.amount r = ExamFee.amount exam_fee ∧
     run false (get_fee k) st' = (st', Ok r)) ∧
  (∃ st' k,
     run false (issue_book (Issue.create day1 1 1)) store_one_copy
       = (st', Ok (Issue.with_id k (Issue.create day1 1 1))) ∧
     issue st' !! k = Some (Issue.with_id k (Issue.create day1 1 1))).
Proof.
  destruct (create_then_get false store_lent (store_lent_reachable false))
    as (Hstudent & _ & Hbook & _ & _ & _ & Hresult & _ & Hfee & _).
  destruct (create_then_get false store_one_copy
              (store_one_copy_reachable false))
    as (_ & _ & _ & _ & Hissue & _).
  repeat apply conj.
  - destruct (Hstudent ada)
      as (st' & r & k & v & H1 & H2 & _ & _ & _ & H6 & H7 & H8 & H9 & H10).
    exists st', r, k, v. done.
  - destruct (Hbook sicp eq_refl)
      as (st' & r & k & H1 & H2 & _ & _ & _ & _ & _ & H8).
    exists st', r, k. done.
  - destruct (Hresult midterm eq_refl eq_refl eq_refl eq_refl eq_refl)
      as (st' & r & k & H1 & H2 & _ & _ & H5 & H6 & H7).
    exists st', r, k. done.
  - destruct (Hfee exam_fee eq_refl eq_refl eq_refl eq_refl)
      as (st' & r & k & H1 & H2 & _ & H4 & _ & _ & H7).
    exists st', r, k. done.
  - eapply Hissue; [reflexivity..| |reflexivity].
    vm_compute. discriminate.
Defined.

(** ** Scenarios *)

(** A book with one copy: issuing it leaves none and an open issue, a
    second issue is refused, and the return gives the copy back and dates
    the issue. *)
Example lending_scenario :
  Book.available_copies <$> book store_one_copy !! 1 = Some 1 ∧
  Book.available_copies <$> book store_lent !! 1 = Some 0 ∧
  Issue.return_date <$> issue store_lent !! 1 = Some None ∧
  run false (issue_book (Issue.create day1 2 1)) store_lent
    = (store_lent, Raise (HTTPException 400 "Book unavailable")) ∧
  Book.available_copies
    <$> book (step false day2 (POST_returns 1) store_lent) !! 1 = Some 1 ∧
  Issue.return_date
    <$> issue (step false day2 (POST_returns 1) store_lent) !! 1
    = Some (Some day2).
Proof. repeat split; by vm_compute. Qed.

(** A student is enrolled, cannot be enrolled twice, is unenrolled, and
    cannot be unenrolled twice. *)
Example roster_scenario :
  let enrolled := step false day1 (POST_classrooms_add_student 1 1)
                    store_class in
  let left := step false day1 (POST_classrooms_remove_student 1 1)
                enrolled in
  classroomstudent enrolled = [ClassroomStudent.make 1 1] ∧
  (run false (add_student_to_class 1 1) enrolled).2
    = Raise (HTTPException 400 "Student already in class") ∧
  classroomstudent left = [] ∧
  (run false (remove_student_from_class 1 1) left).2
    = Raise (HTTPException 400 "Student not in class").
Proof. repeat split; by vm_compute. Qed.

(** A student with an issue cannot be deleted: the ORM would have to set
    the issue's [student_id] to NULL. *)
Example delete_student_with_issue :
  run false (delete_student 1) store_lent = (store_lent, Raise IntegrityError).
Proof. by vm_compute. Qed.

(** * Further properties of the handlers *)

(** ** Reads and frames *)

(** X1: a GET route issues no statement and commits nothing: whether its
    handler returns or raises, the session is as it was opened. *)
Theorem get_routes_read_only fk today st req :
  is_get req = true →
  ∃ r, handle today req (open fk st) = (open fk st, r).
Proof.
  intros Hget.
  destruct req; try discriminate Hget; unfold_handlers; unfold_monad;
    handler_cases; eauto.
Qed.

Lemma get_routes_read_only_witness :
  ∃ r, handle day2 (GET_students_id 1) (open false store_lent)
       = (open false store_lent, r).
Proof. apply (get_routes_read_only false day2 store_lent); reflexivity. Defined.

(** X2: a request leaves every table alone that its route does not write
    to: students change by the student routes only, staff by the staff
    routes, books and issues by adding, issuing and returning, and so
    on. *)
Theorem request_frame fk today st req t :
  t ∉ writes req →
  same_table t st (step fk today req st).
Proof.
  intros Ht. unfold step, run.
  destruct req; unfold_handlers; unfold_monad; unfold_statements;
    handler_cases; destruct t; try done;
    exfalso; apply Ht; simpl; repeat constructor.
Qed.

Lemma request_frame_witness :
  book (step false day2 (DELETE_students_id 1) store_class)
    = book store_class.
Proof.
  apply (request_frame false day2 store_class (DELETE_students_id 1) t_book).
  simpl. intros H. repeat (apply elem_of_cons in H as [H|H]; [done|]).
  by apply elem_of_nil in H.
Defined.

(** ** Unknown ids *)



(** ** Deleting a student *)

Lemma delete_student_run fk st k :
  run fk (delete_student k) st =
    match student st !! k with
    | None => (st, Raise (HTTPException 404 "Student not found"))
    | Some _ =>
        if refers_to Issue.student_id k (issue st)
           || refers_to ExamResult.student_id k (examresult st)
           || refers_to ExamFee.student_id k (examfee st)
        then (st, Raise IntegrityError)
        else (set_student (delete k (student st))
                (set_classroomstudent
                   (filter (λ r, ClassroomStudent.student_id r ≠ k)
                      (classroomstudent st)) st),
              Ok tt)
    end.
Proof.
  unfold run, delete_student. unfold_monad. unfold DELETE_student. simpl.
  destruct (student st !! k); simpl; [|done].
  by destruct (_ || _).
Qed.

Lemma refers_to_true {A} (student_id_of : A → Z) k (m : gmap Z A) j x :
  m !! j = Some x → student_id_of x = k → refers_to student_id_of k m = true.
Proof.
  intros Hj Hx. apply bool_decide_eq_true, Exists_exists.
  exists (j, x). split; [by apply elem_of_map_to_list|done].
Qed.

(** X4: after a successful [delete_student] the student is gone:
    [get_student] on the id raises 404, [list_students] and the roster of
    every classroom hold no student of that id, no row of the link table
    names it, and the other students and the other rows of the link table
    are as they were. *)
Theorem delete_student_gone fk st k st' :
  run fk (delete_student k) st = (st', Ok tt) →
  run fk (get_student k) st'
    = (st', Raise (HTTPException 404 "Student not found")) ∧
  (∃ l, run fk list_students st' = (st', Ok l) ∧
        ∀ s, s ∈ l → Student.id s ≠ Some k) ∧
  (∀ class_id l,
     run fk (get_class_students class_id) st' = (st', Ok l) →
     ∀ s, s ∈ l → Student.id s ≠ Some k) ∧
  (∀ j, j ≠ k → student st' !! j = student st !! j) ∧
  (∀ l, l ∈ classroomstudent st' ↔
        l ∈ classroomstudent st ∧ ClassroomStudent.student_id l ≠ k).
Proof.
  rewrite delete_student_run.
  destruct (student st !! k) as [s0|]; [|done].
  destruct (_ || _); [done|]. intros [= <-].
  split; [|split; [|split; [|split]]].
  - unfold run, get_student. unfold_monad. simpl.
    by rewrite lookup_delete_eq.
  - eexists. split; [reflexivity|]. simpl.
    intros s Hs. apply list_elem_of_fmap in Hs as ([j r] & -> & Hjr).
    apply elem_of_map_to_list, lookup_delete_Some in Hjr as [Hne _].
    simpl. congruence.
  - intros class_id l. unfold run, get_class_students. unfold_monad. simpl.
    destruct (classroom st !! class_id); simpl; [|done].
    intros [= <-] s Hs. unfold Classroom_students in Hs. simpl in Hs.
    apply list_elem_of_omap in Hs as (r & Hr & Hs).
    apply list_elem_of_filter in Hr as [Hne _].
    destruct (decide _); [|done].
    apply fmap_Some in Hs as (s1 & _ & ->). simpl. congruence.
  - intros j Hj. simpl. by rewrite lookup_delete_ne.
  - intros l. simpl. rewrite list_elem_of_filter. tauto.
Qed.

Lemma delete_student_gone_witness :
  run false (get_student 1) (step false day2 (DELETE_students_id 1) store_class)
    = (step false day2 (DELETE_students_id 1) store_class,
       Raise (HTTPException 404 "Student not found")).
Proof.
  apply (delete_student_gone false store_class 1). by vm_compute.
Defined.

(** X5: a student that an issue, a result or a fee names cannot be
    deleted: the flush would have to set the row's [student_id], which is
    declared [int], to NULL; the request fails with the store unchanged. *)
Theorem delete_student_referenced fk today st k s :
  student st !! k = Some s →
  (∃ j i, issue st !! j = Some i ∧ Issue.student_id i = k) ∨
  (∃ j r, examresult st !! j = Some r ∧ ExamResult.student_id r = k) ∨
  (∃ j f, examfee st !! j = Some f ∧ ExamFee.student_id f = k) →
  run fk (delete_student k) st = (st, Raise IntegrityError) ∧
  step fk today (DELETE_students_id k) st = st.
Proof.
  intros Hs Href.
  assert (Hrun : run fk (delete_student k) st = (st, Raise IntegrityError)).
  { rewrite delete_student_run, Hs.
    destruct Href as [(j & i & Hj & Hi)|[(j & r & Hj & Hr)|(j & f & Hj & Hf)]].
    - by rewrite (refers_to_true _ _ _ _ _ Hj Hi).
    - rewrite (refers_to_true _ _ _ _ _ Hj Hr). by rewrite orb_true_r.
    - rewrite (refers_to_true _ _ _ _ _ Hj Hf). by rewrite orb_true_r. }
  split; [exact Hrun|].
  unfold step, run, handle in *. change (@fmap M M_fmap) with M_fmap.
  unfold M_fmap, bind.
  destruct (delete_student k (open fk st)) as [s' [|e]]; simpl in *;
    congruence.
Qed.

Lemma delete_student_referenced_witness :
  run false (delete_student 1) store_fee = (store_fee, Raise IntegrityError).
Proof.
  refine (proj1 (delete_student_referenced false day2 store_fee 1
                   (Student.make (Some 1) "Ada" "555-0100" (Date 2008 12 10))
                   _ _)).
  - by vm_compute.
  - right. right. exists 1, exam_fee_unpaid. split; [by vm_compute|done].
Defined.

(** ** Updating and deleting rows *)

(** X6: [update_student] on a stored student replaces name, contact number
    and date of birth by the body's, keeps the id and every other student;
    the same update once more changes nothing, and in a reachable store
    [get_student] then shows the new values. *)
Theorem update_student_replaces fk st k b old :
  student st !! k = Some old →
  ∃ st' r,
    run fk (update_student k b) st = (st', Ok r) ∧
    Student.id r = Some k ∧
    Student.name r = StudentBase.name b ∧
    Student.contact_number r = StudentBase.contact_number b ∧
    Student.dob r = StudentBase.dob b ∧
    student st' !! k = Some r ∧
    (∀ j, j ≠ k → student st' !! j = student st !! j) ∧
    run fk (update_student k b) st' = (st', Ok r) ∧
    (reachable fk st →
     ∃ v, run fk (get_student k) st' = (st', Ok v) ∧
          StudentRead.id v = k ∧
          StudentRead.name v = StudentBase.name b ∧
          StudentRead.contact_number v = StudentBase.contact_number b ∧
          StudentRead.dob v = StudentBase.dob b).
Proof.
  intros Hold.
  set (r := Student.with_id k (Student.assign b (Student.with_id k old))).
  exists (set_student (<[k := r]> (student st)) st), r.
  split.
  { unfold run, update_student. unfold_monad. unfold UPDATE_student. simpl.
    by rewrite Hold. }
  repeat (split; [done|]).
  split; [by simpl; rewrite lookup_insert_eq|].
  split; [by intros j Hj; simpl; rewrite lookup_insert_ne|].
  split.
  { unfold run, update_student. unfold_monad. unfold UPDATE_student. simpl.
    rewrite lookup_insert_eq. simpl. rewrite insert_insert_eq.
    reflexivity. }
  intros Hreach. destruct (reachable_inv _ _ Hreach) as [Hbooks _].
  destruct (StudentRead_validate_ok
              (set_student (<[k := r]> (student st)) st) k r Hbooks)
    as (v & Hv & Hid & Hn & Hc & Hd).
  exists v. rewrite get_student_run. simpl. rewrite lookup_insert_eq.
  change (Student.with_id k r) with r in *. rewrite Hv.
  by repeat split.
Qed.

Lemma update_student_replaces_witness :
  ∃ st' r,
    run false (update_student 1 ada_moved) store_one_copy = (st', Ok r) ∧
    Student.contact_number r = "555-0199" ∧
    student st' !! 1 = Some r.
Proof.
  destruct (update_student_replaces false store_one_copy 1 ada_moved
              (Student.make (Some 1) "Ada" "555-0100" (Date 2008 12 10))
              ltac:(by vm_compute))
    as (st' & r & H1 & _ & _ & H4 & _ & H6 & _).
  exists st', r. done.
Defined.

(** X7: [update_staff] on a stored member of staff replaces the three
    fields by the body's and keeps the id and every other row, and
    [get_staff] then returns the updated record; [delete_staff] removes the
    row, after which [get_staff] raises 404 and [list_staff] holds no
    record of that id, the other rows staying as they were. *)
Theorem staff_update_delete fk st k old :
  staff st !! k = Some old →
  (∀ b, ∃ st' r,
     run fk (update_staff k b) st = (st', Ok r) ∧
     Staff.id r = Some k ∧
     Staff.name r = StaffBase.name b ∧
     Staff.contact_number r = StaffBase.contact_number b ∧
     Staff.dob r = StaffBase.dob b ∧
     run fk (get_staff k) st' = (st', Ok r) ∧
     (∀ j, j ≠ k → staff st' !! j = staff st !! j)) ∧
  (∃ st' l,
     run fk (delete_staff k) st = (st', Ok tt) ∧
     run fk (get_staff k) st'
       = (st', Raise (HTTPException 404 "Staff not found")) ∧
     run fk list_staff st' = (st', Ok l) ∧
     (∀ s, s ∈ l → Staff.id s ≠ Some k) ∧
     (∀ j, j ≠ k → staff st' !! j = staff st !! j)).
Proof.
  intros Hold. split.
  - intros b.
    set (r := Staff.with_id k (Staff.assign b (Staff.with_id k old))).
    exists (set_staff (<[k := r]> (staff st)) st), r.
    split.
    { unfold run, update_staff. unfold_monad. unfold UPDATE_staff. simpl.
      by rewrite Hold. }
    repeat (split; [done|]). split.
    { unfold run, get_staff. unfold_monad. simpl.
      by rewrite lookup_insert_eq. }
    intros j Hj. simpl. by rewrite lookup_insert_ne.
  - eexists (set_staff (delete k (staff st)) st), _.
    split.
    { unfold run, delete_staff. unfold_monad. unfold DELETE_staff. simpl.
      by rewrite Hold. }
    split.
    { unfold run, get_staff. unfold_monad. simpl.
      by rewrite lookup_delete_eq. }
    split; [reflexivity|]. split.
    + intros s Hs. simpl in Hs.
      apply list_elem_of_fmap in Hs as ([j r] & -> & Hjr).
      apply elem_of_map_to_list, lookup_delete_Some in Hjr as [Hne _].
      simpl. congruence.
    + intros j Hj. simpl. by rewrite lookup_delete_ne.
Qed.

Lemma staff_update_delete_witness :
  ∃ st', run false (delete_staff 1) store_staff = (st', Ok tt) ∧
         run false (get_staff 1) st'
           = (st', Raise (HTTPException 404 "Staff not found")).
Proof.
  destruct (proj2 (staff_update_delete false store_staff 1
                     (Staff.make (Some 1) "Grace" "555-0142" (Date 1986 12 9))
                     ltac:(by vm_compute)))
    as (st' & l & H1 & H2 & _).
  exists st'. done.
Defined.

(** X8: [delete_result] and [delete_fee] on a stored row remove it: the
    get of the same id then raises 404, and the other rows of the table
    are as they were. *)
Theorem delete_result_fee_gone fk st k :
  (∀ r, examresult st !! k = Some r →
     ∃ st', run fk (delete_result k) st = (st', Ok tt) ∧
            run fk (get_result k) st'
              = (st', Raise (HTTPException 404 "Result not found")) ∧
            (∀ j, j ≠ k → examresult st' !! j = examresult st !! j)) ∧
  (∀ f, examfee st !! k = Some f →
     ∃ st', run fk (delete_fee k) st = (st', Ok tt) ∧
            run fk (get_fee k) st'
              = (st', Raise (HTTPException 404 "Fee not found")) ∧
            (∀ j, j ≠ k → examfee st' !! j = examfee st !! j)).
Proof.
  split.
  - intros r Hr. exists (set_examresult (delete k (examresult st)) st).
    split.
    { unfold run, delete_result. unfold_monad. unfold DELETE_examresult.
      simpl. by rewrite Hr. }
    split.
    { unfold run, get_result. unfold_monad. simpl.
      by rewrite lookup_delete_eq. }
    intros j Hj. simpl. by rewrite lookup_delete_ne.
  - intros f Hf. exists (set_examfee (delete k (examfee st)) st).
    split.
    { unfold run, delete_fee. unfold_monad. unfold DELETE_examfee.
      simpl. by rewrite Hf. }
    split.
    { unfold run, get_fee. unfold_monad. simpl.
      by rewrite lookup_delete_eq. }
    intros j Hj. simpl. by rewrite lookup_delete_ne.
Qed.

Lemma delete_result_fee_gone_witness :
  ∃ st', run false (delete_fee 1) store_fee = (st', Ok tt) ∧
         run false (get_fee 1) st'
           = (st', Raise (HTTPException 404 "Fee not found")).
Proof.
  destruct (proj2 (delete_result_fee_gone false store_fee 1)
              exam_fee_unpaid ltac:(by vm_compute))
    as (st' & H1 & H2 & _).
  exists st'. done.
Defined.

(** ** Lists *)

Lemma select_all_lists {A} (with_id : Z → A → A) (id_of : A → option Z)
    (m : gmap Z A) :
  (∀ k r, id_of (with_id k r) = Some k) →
  lists_table with_id m ((λ p, with_id p.1 p.2) <$> map_to_list m).
Proof.
  intros Hid. split; [|split].
  - apply NoDup_fmap_2_strong; [|apply NoDup_map_to_list].
    intros [k r] [k' r'] Hx Hy Heq. simpl in Heq.
    assert (k = k') as <-.
    { pose proof (f_equal id_of Heq) as H. rewrite !Hid in H. congruence. }
    f_equal. exact (map_to_list_unique m _ _ _ Hx Hy).
  - by rewrite length_fmap, length_map_to_list.
  - intros x. rewrite list_elem_of_fmap. split.
    + intros ([k r] & -> & Hkr). apply elem_of_map_to_list in Hkr. eauto.
    + intros (k & r & Hkr & ->). exists (k, r).
      split; [done|]. by apply elem_of_map_to_list.
Qed.

(** X9: each list route returns the rows of its table, every stored row
    once and with the key as its [id], and nothing else. *)
Theorem list_routes_list_the_table fk st :
  (∃ l, run fk list_students st = (st, Ok l) ∧
        lists_table Student.with_id (student st) l) ∧
  (∃ l, run fk list_staff st = (st, Ok l) ∧
        lists_table Staff.with_id (staff st) l) ∧
  (∃ l, run fk list_classrooms st = (st, Ok l) ∧
        lists_table Classroom.with_id (classroom st) l) ∧
  (∃ l, run fk list_books st = (st, Ok l) ∧
        lists_table Book.with_id (book st) l) ∧
  (∃ l, run fk list_results st = (st, Ok l) ∧
        lists_table ExamResult.with_id (examresult st) l) ∧
  (∃ l, run fk list_fees st = (st, Ok l) ∧
        lists_table ExamFee.with_id (examfee st) l).
Proof.
  repeat apply conj; eexists; (split; [reflexivity|]); simpl.
  - by apply (select_all_lists _ Student.id).
  - by apply (select_all_lists _ Staff.id).
  - by apply (select_all_lists _ Classroom.id).
  - by apply (select_all_lists _ Book.id).
  - by apply (select_all_lists _ ExamResult.id).
  - by apply (select_all_lists _ ExamFee.id).
Qed.

Lemma select_all_insert {A} (with_id : Z → A → A) (m : gmap Z A) k r :
  m !! k = None →
  (λ p, with_id p.1 p.2) <$> map_to_list (<[k := r]> m)
    ≡ₚ with_id k r :: ((λ p, with_id p.1 p.2) <$> map_to_list m).
Proof. intros Hk. by rewrite (map_to_list_insert m k r Hk). Qed.

(** X10: a create of a student, a member of staff, a classroom or a book
    (a book whose [total_copies] is a 64-bit integer) adds exactly one row
    to what the list route returns: the list after the create is the
    created record together with the list before it, up to order. *)
Theorem create_extends_list fk st :
  (∀ b, ∃ st' r l l',
     run fk (create_student b) st = (st', Ok r) ∧
     run fk list_students st = (st, Ok l) ∧
     run fk list_students st' = (st', Ok l') ∧
     l' ≡ₚ r :: l) ∧
  (∀ b, ∃ st' r l l',
     run fk (create_staff b) st = (st', Ok r) ∧
     run fk list_staff st = (st, Ok l) ∧
     run fk list_staff st' = (st', Ok l') ∧
     l' ≡ₚ r :: l) ∧
  (∀ b, ∃ st' r l l',
     run fk (create_classroom b) st = (st', Ok r) ∧
     run fk list_classrooms st = (st, Ok l) ∧
     run fk list_classrooms st' = (st', Ok l') ∧
     l' ≡ₚ r :: l) ∧
  (∀ b, int64 (BookBase.total_copies b) = true →
     ∃ st' r l l',
       run fk (add_book b) st = (st', Ok r) ∧
       run fk list_books st = (st, Ok l) ∧
       run fk list_books st' = (st', Ok l') ∧
       l' ≡ₚ r :: l).
Proof.
  repeat apply conj.
  - intros b. eexists _, _, _, _. do 3 (split; [reflexivity|]). simpl.
    apply (select_all_insert Student.with_id (student st) _
             (Student.with_id _ (Student.of_base b))), next_id_fresh.
  - intros b. eexists _, _, _, _. do 3 (split; [reflexivity|]). simpl.
    apply (select_all_insert Staff.with_id (staff st) _
             (Staff.with_id _ (Staff.of_base b))), next_id_fresh.
  - intros b. eexists _, _, _, _. do 3 (split; [reflexivity|]). simpl.
    apply (select_all_insert Classroom.with_id (classroom st) _
             (Classroom.with_id _ (Classroom.of_base b))), next_id_fresh.
  - intros b Hb. eexists _, _, _, _. rewrite add_book_run, Hb.
    do 3 (split; [reflexivity|]). simpl.
    apply (select_all_insert Book.with_id (book st) _
             (Book.with_id _ (Book.of_base b (BookBase.total_copies b)))),
      next_id_fresh.
Qed.

Lemma create_extends_list_witness :
  ∃ st' r l l',
    run false (add_book sicp) store_lent = (st', Ok r) ∧
    run false list_books store_lent = (store_lent, Ok l) ∧
    run false list_books st' = (st', Ok l') ∧
    l' ≡ₚ r :: l.
Proof.
  apply (proj2 (proj2 (proj2 (create_extends_list false store_lent)))).
  reflexivity.
Defined.

(** ** Rosters and listings by student *)

Lemma in_Classroom_students_iff st class_id s :
  s ∈ Classroom_students st class_id ↔
  ∃ k r, ClassroomStudent.make class_id k ∈ classroomstudent st ∧
         student st !! k = Some r ∧ s = Student.with_id k r.
Proof.
  unfold Classroom_students. rewrite list_elem_of_omap. split.
  - intros ([c k] & Hin & Hf). simpl in Hf.
    destruct (decide (c = class_id)) as [->|]; [|done].
    apply fmap_Some in Hf as (r & Hr & ->). eauto.
  - intros (k & r & Hin & Hr & ->).
    exists (ClassroomStudent.make class_id k). split; [done|]. simpl.
    rewrite decide_True by done. by rewrite Hr.
Qed.

(** X11: for a known classroom [get_class_students] returns the students
    that a row of the link table pairs with it, and nobody else.  After a
    successful [add_student_to_class] the roster is the old one and the
    student, up to order; after a successful [remove_student_from_class]
    it holds no student of that id. *)
Theorem class_roster fk st class_id c :
  classroom st !! class_id = Some c →
  ∃ l,
    run fk (get_class_students class_id) st = (st, Ok l) ∧
    (∀ s, s ∈ l ↔
          ∃ k r, ClassroomStudent.make class_id k ∈ classroomstudent st ∧
                 student st !! k = Some r ∧ s = Student.with_id k r) ∧
    (∀ student_id st' r,
       run fk (add_student_to_class class_id student_id) st = (st', Ok r) →
       ∃ s l', student st !! student_id = Some s ∧
               run fk (get_class_students class_id) st' = (st', Ok l') ∧
               l' ≡ₚ Student.with_id student_id s :: l) ∧
    (∀ student_id st' r,
       run fk (remove_student_from_class class_id student_id) st
         = (st', Ok r) →
       ∃ l', run fk (get_class_students class_id) st' = (st', Ok l') ∧
             ∀ s, s ∈ l' → Student.id s ≠ Some student_id).
Proof.
  intros Hc.
  assert (Hget : ∀ st0, classroom st0 = classroom st →
            run fk (get_class_students class_id) st0
              = (st0, Ok (Classroom_students st0 class_id))).
  { intros st0 Hst0. unfold run, get_class_students. unfold_monad. simpl.
    by rewrite Hst0, Hc. }
  exists (Classroom_students st class_id).
  split; [by apply Hget|]. split; [apply in_Classroom_students_iff|]. split.
  - intros student_id st' r Hrun. unfold run in Hrun. revert Hrun.
    rewrite add_student_to_class_eq, Hc.
    destruct (student st !! student_id) as [s|] eqn:Hs; [|done].
    destruct (bool_decide _); [done|]. intros [= <- <-].
    exists s. eexists. split; [done|]. split; [by apply Hget|].
    unfold Classroom_students. simpl. rewrite omap_app. simpl.
    rewrite decide_True by done. rewrite Hs. simpl.
    by rewrite Permutation_app_comm.
  - intros student_id st' r Hrun. unfold run in Hrun. revert Hrun.
    rewrite remove_student_from_class_eq, Hc.
    destruct (student st !! student_id) as [s|] eqn:Hs; [|done].
    destruct (bool_decide _); [|done]. intros [= <- <-].
    eexists. split; [by apply Hget|].
    intros s0 Hs0. apply in_Classroom_students_iff in Hs0
      as (k & r0 & Hin & _ & ->).
    simpl in Hin. apply list_elem_of_filter in Hin as [Hne _].
    simpl. intros [= ->]. by apply Hne.
Qed.

Lemma class_roster_witness :
  ∃ l, run false (get_class_students 1) store_enrolled
         = (store_enrolled, Ok l) ∧
       l ≡ₚ [Student.make (Some 1) "Ada" "555-0100" (Date 2008 12 10)].
Proof.
  destruct (class_roster false store_class 1
              (Classroom.make (Some 1) "Form 3" "3" "B" "Hopper")
              ltac:(by vm_compute))
    as (l & Hl & _ & Hadd & _).
  destruct (Hadd 1 store_enrolled
              (Classroom.make (Some 1) "Form 3" "3" "B" "Hopper")
              ltac:(by vm_compute))
    as (s & l' & Hs & Hget & Hperm).
  vm_compute in Hs. injection Hs as <-.
  vm_compute in Hl. injection Hl as <-.
  exists l'. split; [exact Hget|exact Hperm].
Defined.




(** ** More on [update_fee] *)

Lemma update_fee_run fk st fee_id fee fields_set :
  run fk (update_fee fee_id fee fields_set) st =
    match examfee st !! fee_id with
    | None => (st, Raise (HTTPException 404 "Fee not found"))
    | Some old =>
        match UPDATE_examfee fee_id
                (foldl (ExamFee.setattr_from fee) (ExamFee.with_id fee_id old)
                   (ExamFee.dict_exclude_unset fields_set)) fk st with
        | Ok (st', r) => (st', Ok r)
        | Raise e => (st, Raise e)
        end
    end.
Proof.
  unfold run, update_fee. unfold_monad. simpl.
  destruct (examfee st !! fee_id); simpl; [|done].
  by destruct (UPDATE_examfee _ _ _ _) as [[? ?]|].
Qed.

Lemma ExamFee_eq (a b : ExamFee.t) :
  ExamFee.id a = ExamFee.id b →
  ExamFee.student_id a = ExamFee.student_id b →
  ExamFee.amount a = ExamFee.amount b →
  ExamFee.due_date a = ExamFee.due_date b →
  ExamFee.paid a = ExamFee.paid b →
  a = b.
Proof. destruct a, b; simpl; by intros -> -> -> -> ->. Qed.

(** Writing again what the row holds, or what it holds once read back,
    leaves the row as it is. *)
Lemma UPDATE_examfee_again fk st k row f :
  examfee st !! k = Some row →
  ExamFee.id f = Some k →
  ExamFee.id row = Some k →
  ExamFee.student_id f = ExamFee.student_id row →
  ExamFee.due_date f = ExamFee.due_date row →
  ExamFee.paid f = ExamFee.paid row →
  ExamFee.amount f = ExamFee.amount row ∨
  (ExamFee.amount row = REAL (ExamFee.amount f) ∧
   is_nan (ExamFee.amount f) = false) →
  UPDATE_examfee k f fk st
    = Ok (set_examfee (<[k := row]> (examfee st)) st, row).
Proof.
  intros Hl Hid Hidr Hs Hd Hp Ha. unfold UPDATE_examfee. rewrite Hid, Hl.
  rewrite bool_decide_eq_false_2 by (intros H; by apply H).
  cbn [andb fmap option_fmap option_map].
  rewrite (bool_decide_eq_true_2
             (Some (ExamFee.student_id row) = Some (ExamFee.student_id f)))
    by (by rewrite Hs).
  cbn [orb]. rewrite andb_true_r.
  destruct (decide (ExamFee.amount f = ExamFee.amount row)) as [Heq|Hne].
  - rewrite !bool_decide_eq_true_2 by (by rewrite Heq). cbn [orb].
    rewrite insert_delete_eq.
    assert (f = row) as -> by (apply ExamFee_eq; congruence). done.
  - destruct Ha as [?|[Hr Hn]]; [done|].
    rewrite !bool_decide_eq_false_2 by (intros [= ?]; congruence).
    rewrite Hn. cbn [orb negb]. rewrite insert_delete_eq.
    assert (ExamFee.as_row f = row) as ->
      by (apply ExamFee_eq; simpl; congruence).
    done.
Qed.

(** X14: an update of a fee that does not set [id] is idempotent: sent a
    second time after it has succeeded, it succeeds again, returns the same
    record and leaves the store as the first one left it. *)
Theorem update_fee_idempotent fk st fee_id fee fields_set st' r :
  ExamFee.f_id ∉ fields_set →
  run fk (update_fee fee_id fee fields_set) st = (st', Ok r) →
  run fk (update_fee fee_id fee fields_set) st' = (st', Ok r).
Proof.
  intros Hnid. rewrite !update_fee_run.
  destruct (examfee st !! fee_id) as [old|] eqn:Hold; [|done].
  pose proof (setattr_loop fee (ExamFee.with_id fee_id old) fields_set)
    as Hloop.
  set (r0 := foldl (ExamFee.setattr_from fee) (ExamFee.with_id fee_id old)
               (ExamFee.dict_exclude_unset fields_set)) in *.
  simpl in Hloop. destruct Hloop as (Hid & Hsid & Ham & Hdue & Hpaid).
  rewrite decide_False in Hid by done.
  unfold UPDATE_examfee at 1. rewrite Hid, Hold.
  rewrite bool_decide_eq_false_2 by (intros H; by apply H).
  cbn [andb fmap option_fmap option_map].
  destruct (decide (ExamFee.amount r0 = ExamFee.amount old)) as [Heq|Hne].
  - rewrite !(bool_decide_eq_true_2 (Some (ExamFee.amount old) = _))
      by (by rewrite Heq).
    cbn [orb andb].
    destruct (_ || _); [|done]. intros [= <- <-]. simpl.
    rewrite insert_delete_eq, lookup_insert_eq.
    pose proof (setattr_loop fee (ExamFee.with_id fee_id r0) fields_set)
      as Hloop.
    simpl in Hloop. destruct Hloop as (Hid1 & Hsid1 & Ham1 & Hdue1 & Hpaid1).
    rewrite decide_False in Hid1 by done.
    rewrite (UPDATE_examfee_again fk _ fee_id r0).
    + simpl. by rewrite insert_insert_eq.
    + simpl. apply lookup_insert_eq.
    + done.
    + done.
    + rewrite Hsid1, Hsid. by repeat case_decide.
    + rewrite Hdue1, Hdue. by repeat case_decide.
    + rewrite Hpaid1, Hpaid. by repeat case_decide.
    + left. rewrite Ham1, Ham. by repeat case_decide.
  - rewrite !(bool_decide_eq_false_2 (Some (ExamFee.amount old) = _))
      by (intros [= ?]; congruence).
    cbn [orb].
    destruct (is_nan (ExamFee.amount r0)) eqn:Hnan; [done|]. cbn [negb andb].
    destruct (_ || _); [|done]. intros [= <- <-]. simpl.
    rewrite insert_delete_eq, lookup_insert_eq.
    pose proof (setattr_loop fee (ExamFee.with_id fee_id (ExamFee.as_row r0))
                  fields_set) as Hloop.
    simpl in Hloop. destruct Hloop as (Hid1 & Hsid1 & Ham1 & Hdue1 & Hpaid1).
    rewrite decide_False in Hid1 by done.
    assert (Hset : ExamFee.f_amount ∈ fields_set).
    { destruct (decide (ExamFee.f_amount ∈ fields_set)); [done|].
      exfalso. apply Hne. exact Ham. }
    rewrite decide_True in Ham, Ham1 by done.
    rewrite (UPDATE_examfee_again fk _ fee_id (ExamFee.as_row r0)).
    + simpl. by rewrite insert_insert_eq.
    + simpl. apply lookup_insert_eq.
    + done.
    + done.
    + rewrite Hsid1. simpl. rewrite Hsid. by repeat case_decide.
    + rewrite Hdue1. simpl. rewrite Hdue. by repeat case_decide.
    + rewrite Hpaid1. simpl. rewrite Hpaid. by repeat case_decide.
    + right. rewrite Ham1. simpl. by rewrite Ham, <- Ham, Hnan.
Qed.

Lemma update_fee_idempotent_witness :
  run false (update_fee 1 mark_paid [ExamFee.f_paid])
    (step false day2 (PUT_fees_id 1 mark_paid [ExamFee.f_paid]) store_fee)
    = (step false day2 (PUT_fees_id 1 mark_paid [ExamFee.f_paid]) store_fee,
       Ok exam_fee_paid).
Proof.
  apply (update_fee_idempotent false store_fee 1 mark_paid [ExamFee.f_paid]).
  - intros H. apply list_elem_of_singleton in H. discriminate H.
  - by vm_compute.
Defined.



(** ** What no request changes *)

(** X16: no request removes an issue or changes its student, book or issue
    date.  Its return date changes at most once, from null to the day of
    the request, and only by [return_book] on that issue. *)
Theorem issue_rows_stable fk today req st k i :
  issue st !! k = Some i →
  ∃ i', issue (step fk today req st) !! k = Some i' ∧
        Issue.student_id i' = Issue.student_id i ∧
        Issue.book_id i' = Issue.book_id i ∧
        Issue.issue_date i' = Issue.issue_date i ∧
        (Issue.return_date i' = Issue.return_date i ∨
         (req = POST_returns k ∧ Issue.return_date i = None ∧
          Issue.return_date i' = Some today)).
Proof.
  intros Hi. unfold step, run.
  destruct req; unfold_handlers; unfold_monad; unfold_statements;
    handler_cases;
    try (exists i; split; [done|]; repeat (split; [done|]); by left).
  - match goal with
    | H : new_pk _ _ = Ok ?a |- _ =>
        apply new_pk_fresh in H;
        exists i; rewrite lookup_insert_ne by congruence;
        split; [done|]; repeat (split; [done|]); by left
    end.
  - match goal with
    | H : issue st !! ?j = Some ?t |- _ =>
        destruct (decide (j = k)) as [->|Hne]
    end.
    + rewrite lookup_insert_eq. simplify_eq. eexists. split; [done|].
      simpl. repeat (split; [done|]). right.
      match goal with
      | H : bool_decide (is_Some ?d) = false |- _ =>
          apply bool_decide_eq_false in H;
          destruct d; [exfalso; eauto|done]
      end.
    + exists i. rewrite lookup_insert_ne by done.
      split; [done|]. repeat (split; [done|]). by left.
Qed.

Lemma issue_rows_stable_witness :
  ∃ i', issue (step false day2 (POST_returns 1) store_lent) !! 1 = Some i' ∧
        Issue.student_id i' = 1 ∧
        Issue.book_id i' = 1 ∧
        Issue.issue_date i' = day1.
Proof.
  destruct (issue_rows_stable false day2 (POST_returns 1) store_lent 1
              (Issue.make (Some 1) 1 1 day1 None) ltac:(by vm_compute))
    as (i' & H1 & H2 & H3 & H4 & _).
  exists i'. done.
Defined.

(** X17: no request removes a book or changes its title, author, ISBN or
    total; a request changes the available copies of a book by one at
    most. *)
Theorem book_rows_stable fk today req st b bk :
  book st !! b = Some bk →
  ∃ bk', book (step fk today req st) !! b = Some bk' ∧
         Book.title bk' = Book.title bk ∧
         Book.author bk' = Book.author bk ∧
         Book.isbn bk' = Book.isbn bk ∧
         Book.total_copies bk' = Book.total_copies bk ∧
         Book.available_copies bk - 1 ≤ Book.available_copies bk'
           ≤ Book.available_copies bk + 1.
Proof.
  intros Hb.
  assert (Hsame : ∃ bk', Some bk = Some bk' ∧
            Book.title bk' = Book.title bk ∧
            Book.author bk' = Book.author bk ∧
            Book.isbn bk' = Book.isbn bk ∧
            Book.total_copies bk' = Book.total_copies bk ∧
            Book.available_copies bk - 1 ≤ Book.available_copies bk'
              ≤ Book.available_copies bk + 1).
  { exists bk. repeat split; lia. }
  unfold step, run.
  destruct req; unfold_handlers; unfold_monad; unfold_statements;
    handler_cases; try (rewrite Hb; exact Hsame).
  - rewrite lookup_insert_ne; [rewrite Hb; exact Hsame|].
    intros Heq. pose proof (next_id_fresh (book st)) as Hf. congruence.
  - destruct (decide (Issue.book_id issue_ = b)) as [<-|Hne].
    + rewrite lookup_insert_eq. simplify_eq. eexists. split; [done|].
      simpl. repeat split; lia.
    + rewrite lookup_insert_ne by done. rewrite Hb. exact Hsame.
  - match goal with
    | H : book st !! ?j = Some ?t |- _ =>
        destruct (decide (j = b)) as [Heq|Hne]
    end.
    + rewrite Heq in *. rewrite lookup_insert_eq. simplify_eq.
      eexists. split; [done|]. simpl. repeat split; lia.
    + rewrite lookup_insert_ne by done. rewrite Hb. exact Hsame.
Qed.

Lemma book_rows_stable_witness :
  ∃ bk', book (step false day2 (POST_returns 1) store_lent) !! 1 = Some bk' ∧
         Book.total_copies bk' = 1 ∧
         Book.isbn bk' = "0262510871".
Proof.
  destruct (book_rows_stable false day2 (POST_returns 1) store_lent 1
              (Book.make (Some 1) "Structure and Interpretation" "Abelson"
                 "0262510871" 1 0) ltac:(by vm_compute))
    as (bk' & H1 & _ & _ & H4 & H5 & _).
  exists bk'. done.
Defined.

(** ** Invariants of reachable stores *)

Lemma step_links_refer fk today req st :
  links_refer st → links_refer (step fk today req st).
Proof.
  intros Hinv. unfold step, run.
  destruct req; unfold_handlers; unfold_monad; unfold_statements;
    handler_cases; try exact Hinv; intros l Hl; simpl in *.
  all: try (apply list_elem_of_filter in Hl as [Hne Hl]).
  all: try (apply elem_of_app in Hl as [Hl|Hl]).
  all: try (destruct (Hinv l Hl) as [Hc Hs]; split;
            rewrite ?lookup_insert_is_Some', ?lookup_delete_ne by done;
            by auto).
  apply list_elem_of_singleton in Hl as ->. simpl.
  match goal with
  | H1 : classroom st !! _ = Some _, H2 : student st !! _ = Some _ |- _ =>
      rewrite H1, H2; by eauto
  end.
Qed.

(** X18: in every reachable store each row of the link table names a
    classroom and a student that exist, so each enrolment shows in
    [get_class_students]: the roster of the classroom holds a student of
    that id. *)
Theorem enrolments_refer fk st :
  reachable fk st →
  links_refer st ∧
  (∀ class_id student_id,
     ClassroomStudent.make class_id student_id ∈ classroomstudent st →
     ∃ l s, run fk (get_class_students class_id) st = (st, Ok l) ∧
            s ∈ l ∧ Student.id s = Some student_id).
Proof.
  intros Hreach.
  assert (Hinv : links_refer st).
  { induction Hreach as [|st today req _ IH].
    - intros l Hl. by apply elem_of_nil in Hl.
    - by apply step_links_refer. }
  split; [exact Hinv|].
  intros class_id student_id Hl.
  destruct (Hinv _ Hl) as [[c Hc] [s Hs]]. simpl in Hc, Hs.
  exists (Classroom_students st class_id), (Student.with_id student_id s).
  split.
  { unfold run, get_class_students. unfold_monad. simpl. by rewrite Hc. }
  split; [|done]. by apply in_Classroom_students.
Qed.

Lemma enrolments_refer_witness :
  ∃ l s, run false (get_class_students 1) store_enrolled
           = (store_enrolled, Ok l) ∧
         s ∈ l ∧ Student.id s = Some 1.
Proof.
  assert (Hreach : reachable false store_enrolled).
  { apply reachable_step, reachable_step, store_one_copy_reachable. }
  apply (proj2 (enrolments_refer false store_enrolled Hreach) 1 1).
  change (classroomstudent store_enrolled)
    with [ClassroomStudent.make 1 1].
  apply list_elem_of_singleton. reflexivity.
Defined.

(** X19: in every reachable store the open issues of a book and its
    available copies add up to its total at most, so a book never has more
    open issues than copies, and a book entered with a negative total has
    none. *)
Theorem open_issues_bounded fk st b bk :
  reachable fk st →
  book st !! b = Some bk →
  Book.available_copies bk + Z.of_nat (outstanding (issue st) b)
    ≤ Book.total_copies bk ∧
  Z.of_nat (outstanding (issue st) b) ≤ Z.max 0 (Book.total_copies bk).
Proof.
  intros Hreach Hb.
  destruct (reachable_inv _ _ Hreach) as [_ Hinv].
  destruct (Hinv _ _ Hb) as [Hlo Hhi]. lia.
Qed.

Lemma open_issues_bounded_witness :
  Z.of_nat (outstanding (issue store_lent) 1) ≤ 1.
Proof.
  apply (open_issues_bounded false store_lent 1
           (Book.make (Some 1) "Structure and Interpretation" "Abelson"
              "0262510871" 1 0) (store_lent_reachable false)).
  by vm_compute.
Defined.

(** ** The nested view of a student *)

Lemma mapM_elem_of {A B} (f : A → option B) l k y :
  mapM f l = Some k →
  y ∈ k ↔ ∃ x, x ∈ l ∧ f x = Some y.
Proof.
  rewrite mapM_Some. induction 1 as [|x y0 l k Hxy _ IH].
  - split; [by intros ?%elem_of_nil|by intros (? & ?%elem_of_nil & _)].
  - rewrite elem_of_cons, IH. split.
    + intros [->|(x0 & Hx0 & Hf)]; [exists x; split; [left|done]|].
      exists x0. split; [by right|done].
    + intros (x0 & Hx0 & Hf). apply elem_of_cons in Hx0 as [->|Hx0].
      * left. congruence.
      * right. eauto.
Qed.

(** X20: in a reachable store [get_student] on a stored student succeeds,
    and what it nests agrees with the other routes: its issues are the
    issues [student_issues] returns, in order, each with the row of its
    book as it is now; its results and fees are those of [get_results] and
    [get_fees]; its classrooms are the classrooms the link table pairs
    with the student. *)
Theorem get_student_nested fk st k s :
  reachable fk st →
  student st !! k = Some s →
  ∃ v issues results fees,
    run fk (get_student k) st = (st, Ok v) ∧
    run fk (student_issues k) st = (st, Ok issues) ∧
    run fk (get_results k) st = (st, Ok results) ∧
    run fk (get_fees k) st = (st, Ok fees) ∧
    Forall2
      (λ i r,
         Issue.id i = Some (IssueRead.id r) ∧
         IssueRead.issue_date r = Issue.issue_date i ∧
         IssueRead.return_date r = Issue.return_date i ∧
         BookRead.id (IssueRead.book r) = Issue.book_id i ∧
         ∃ bk, book st !! Issue.book_id i = Some bk ∧
               BookRead.title (IssueRead.book r) = Book.title bk ∧
               BookRead.total_copies (IssueRead.book r)
                 = Book.total_copies bk ∧
               BookRead.available_copies (IssueRead.book r)
                 = Book.available_copies bk)
      issues (StudentRead.issues v) ∧
    StudentRead.results v = ExamResultRead_validate <$> results ∧
    Forall2
      (λ f r,
         ExamFee.id f = Some (ExamFeeRead.id r) ∧
         ExamFeeRead.amount r = ExamFee.amount f ∧
         ExamFeeRead.due_date r = ExamFee.due_date f ∧
         ExamFeeRead.paid r = ExamFee.paid f)
      fees (StudentRead.fees v) ∧
    (∀ c, c ∈ StudentRead.classrooms v ↔
          ∃ class_id cl,
            ClassroomStudent.make class_id k ∈ classroomstudent st ∧
            classroom st !! class_id = Some cl ∧
            c = ClassroomRead.make (Classroom.class_name cl)
                  (Classroom.std cl) (Classroom.sec cl)
                  (Classroom.class_teacher cl) class_id).
Proof.
  intros Hreach Hs. destruct (reachable_inv _ _ Hreach) as [Hbooks _].
  destruct (StudentRead_validate_ok st k s Hbooks) as (v & Hv & _).
  exists v. eexists _, _, _.
  split; [by rewrite get_student_run, Hs, Hv|].
  split; [reflexivity|]. split; [reflexivity|]. split; [reflexivity|].
  unfold StudentRead_validate in Hv. simpl in Hv.
  destruct (mapM ClassroomRead_validate _) as [cs|] eqn:Hcs; [|done].
  simpl in Hv.
  destruct (mapM (IssueRead_validate st) _) as [irs|] eqn:His; [|done].
  simpl in Hv.
  destruct (mapM ExamFeeRead_validate _) as [fs|] eqn:Hfs; [|done].
  simpl in Hv. injection Hv as <-. simpl.
  split; [|split; [done|split]].
  - apply mapM_Some in His. eapply Forall2_impl; [exact His|].
    intros i r Hir. unfold IssueRead_validate, Issue_book in Hir.
    destruct (Issue.id i) as [ki|]; [|done]. simpl in Hir.
    destruct (book st !! Issue.book_id i) as [bk|]; [|done].
    simpl in Hir. injection Hir as <-. simpl.
    repeat (split; [done|]). by exists bk.
  - apply mapM_Some in Hfs. eapply Forall2_impl; [exact Hfs|].
    intros f r Hfr. unfold ExamFeeRead_validate in Hfr.
    destruct (ExamFee.id f) as [kf|]; [|done]. simpl in Hfr.
    by injection Hfr as <-.
  - intros c. rewrite (mapM_elem_of _ _ _ _ Hcs).
    unfold Student_classrooms. setoid_rewrite list_elem_of_omap. split.
    + intros (x & ([cid sid] & Hl & Hx) & Hc). simpl in Hx.
      destruct (decide (sid = k)) as [->|]; [|done].
      apply fmap_Some in Hx as (cl & Hcl & ->).
      unfold ClassroomRead_validate in Hc. simpl in Hc.
      injection Hc as <-. eauto.
    + intros (cid & cl & Hl & Hcl & ->).
      exists (Classroom.with_id cid cl). split; [|done].
      exists (ClassroomStudent.make cid k). split; [done|]. simpl.
      rewrite decide_True by done. by rewrite Hcl.
Qed.

Lemma get_student_nested_witness :
  ∃ v, run false (get_student 1) store_lent = (store_lent, Ok v) ∧
       length (StudentRead.issues v) = 1%nat.
Proof.
  destruct (get_student_nested false store_lent 1
              (Student.make (Some 1) "Ada" "555-0100" (Date 2008 12 10))
              (store_lent_reachable false) ltac:(by vm_compute))
    as (v & issues & results & fees & Hv & Hi & _ & _ & Hall & _).
  exists v. split; [exact Hv|].
  apply Forall2_length in Hall. rewrite <- Hall.
  vm_compute in Hi. by injection Hi as <-.
Defined.

(** ** Repeated creates and status codes *)

(** X21: creating is not idempotent: no handler looks for an equal row, so
    the same body sent twice to [create_student], [create_staff],
    [create_classroom] or [add_book] (a book whose [total_copies] is a
    64-bit integer) gives two rows under two different ids, the second id
    the larger, and both rows are in the table afterwards. *)
Theorem create_twice fk st :
  (∀ b, ∃ st1 st2 r1 r2 k1 k2,
     run fk (create_student b) st = (st1, Ok r1) ∧
     run fk (create_student b) st1 = (st2, Ok r2) ∧
     Student.id r1 = Some k1 ∧ Student.id r2 = Some k2 ∧ k1 < k2 ∧
     student st2 !! k1 = Some r1 ∧ student st2 !! k2 = Some r2) ∧
  (∀ b, ∃ st1 st2 r1 r2 k1 k2,
     run fk (create_staff b) st = (st1, Ok r1) ∧
     run fk (create_staff b) st1 = (st2, Ok r2) ∧
     Staff.id r1 = Some k1 ∧ Staff.id r2 = Some k2 ∧ k1 < k2 ∧
     staff st2 !! k1 = Some r1 ∧ staff st2 !! k2 = Some r2) ∧
  (∀ b, ∃ st1 st2 r1 r2 k1 k2,
     run fk (create_classroom b) st = (st1, Ok r1) ∧
     run fk (create_classroom b) st1 = (st2, Ok r2) ∧
     Classroom.id r1 = Some k1 ∧ Classroom.id r2 = Some k2 ∧ k1 < k2 ∧
     classroom st2 !! k1 = Some r1 ∧ classroom st2 !! k2 = Some r2) ∧
  (∀ b, int64 (BookBase.total_copies b) = true →
     ∃ st1 st2 r1 r2 k1 k2,
       run fk (add_book b) st = (st1, Ok r1) ∧
       run fk (add_book b) st1 = (st2, Ok r2) ∧
       Book.id r1 = Some k1 ∧ Book.id r2 = Some k2 ∧ k1 < k2 ∧
       book st2 !! k1 = Some r1 ∧ book st2 !! k2 = Some r2).
Proof.
  assert (Hfin : ∀ {A} (m : gmap Z A) (r r' : A),
            next_id m < next_id (<[next_id m := r]> m) ∧
            <[next_id (<[next_id m := r]> m) := r']> (<[next_id m := r]> m)
              !! next_id m = Some r ∧
            <[next_id (<[next_id m := r]> m) := r']> (<[next_id m := r]> m)
              !! next_id (<[next_id m := r]> m) = Some r').
  { intros A m r r'.
    assert (Hlt : next_id m < next_id (<[next_id m := r]> m))
      by (apply (next_id_above _ _ r), lookup_insert_eq).
    split; [exact Hlt|]. split; [|apply lookup_insert_eq].
    rewrite lookup_insert_ne by lia. apply lookup_insert_eq. }
  repeat apply conj.
  - intros b. eexists _, _, _, _, _, _.
    do 4 (split; [reflexivity|]). apply Hfin.
  - intros b. eexists _, _, _, _, _, _.
    do 4 (split; [reflexivity|]). apply Hfin.
  - intros b. eexists _, _, _, _, _, _.
    do 4 (split; [reflexivity|]). apply Hfin.
  - intros b Hb. eexists _, _, _, _, _, _.
    rewrite !add_book_run, Hb.
    do 4 (split; [reflexivity|]). apply Hfin.
Qed.

Lemma create_twice_witness :
  ∃ st1 st2 r1 r2 k1 k2,
    run false (add_book sicp) store_lent = (st1, Ok r1) ∧
    run false (add_book sicp) st1 = (st2, Ok r2) ∧
    Book.id r1 = Some k1 ∧ Book.id r2 = Some k2 ∧ k1 < k2 ∧
    book st2 !! k1 = Some r1 ∧ book st2 !! k2 = Some r2.
Proof.
  apply (proj2 (proj2 (proj2 (create_twice false store_lent)))).
  reflexivity.
Defined.

(** X22: the only statuses a handler raises are 404 and 400, and 400 comes
    from the two roster routes and from issue and return only; every other
    route answers a request it rejects with 404. *)
Theorem http_statuses today req s s' status_code detail :
  handle today req s = (s', Raise (HTTPException status_code detail)) →
  (status_code = 404 ∨ status_code = 400) ∧
  (status_code = 400 → answers_400 req = true).
Proof.
  destruct req; unfold_handlers; unfold_monad; unfold_statements;
    intros H; handler_cases;
    try match goal with
        | H : new_pk _ _ = Raise _ |- _ =>
            apply new_pk_error in H; discriminate H
        end;
    split; (auto || (intros [=])).
Qed.

Lemma http_statuses_witness :
  handle day2 (POST_issues (Issue.create day2 1 1)) (open false store_lent)
    = (open false store_lent, Raise (HTTPException 400 "Book unavailable")) ∧
  answers_400 (POST_issues (Issue.create day2 1 1)) = true.
Proof.
  assert (H : handle day2 (POST_issues (Issue.create day2 1 1))
                (open false store_lent)
              = (open false store_lent,
                 Raise (HTTPException 400 "Book unavailable")))
    by (by vm_compute).
  split; [exact H|].
  exact (proj2 (http_statuses _ _ _ _ _ _ H) eq_refl).
Defined.
